(** * The ASI MS-2000 stage: protocol driver and per-axis facade

    A shallow embedding of
      - [tests/MS2000.py]                       (class [MS2000], the protocol driver)
      - [dirigo_asi_stage/dirigo_asi_stage.py]  (classes [ASILinearMotor], [MS2000Stage])

    Python floats are idealised as rationals ([Q]); the serial link is a
    script of pending replies together with the log of transmitted commands;
    exceptions are values of [exn] threaded through a state-and-error monad.

    The facade imports its driver from [ms2000_lowlevel]; the class [MS2000]
    of [tests/MS2000.py] is the driver embedded here, and the facade is
    written against the methods it calls on [self._controller._stage], so
    that it can also be run against a test double. *)

From Stdlib Require Import ZArith QArith Qround Qabs String Ascii List Bool Lia.
From Stdlib Require Import DecimalString Lqa.
Import ListNotations.

Local Open Scope Z_scope.
Local Open Scope string_scope.

(** ** Python values *)

Module Py.

(** The argument values the driver distinguishes: [None], the numeric types
    accepted by [isinstance(v, (int, float))], and anything else. *)
Inductive value : Type :=
| PyNone
| PyInt (z : Z)
| PyFloat (q : Q)
| PyStr (s : string).

(** [v is not None] *)
Definition is_not_None (v : value) : bool :=
  match v with PyNone => false | _ => true end.

(** [isinstance(v, (int, float))] *)
Definition is_numeric (v : value) : bool :=
  match v with PyInt _ | PyFloat _ => true | _ => false end.

(** Truth value of an object, as used by [or] and [not]. *)
Definition truthy (v : value) : bool :=
  match v with
  | PyNone => false
  | PyInt z => negb (Z.eqb z 0)
  | PyFloat q => negb (Qeq_bool q 0)
  | PyStr s => negb (String.eqb s "")
  end.

(** [a or b]: the first operand when it is truthy, else the second. *)
Definition or_ (a b : value) : value := if truthy a then a else b.

(** [a < b] and [a > b] on floats *)
Definition lt (a b : Q) : bool := negb (Qle_bool b a).
Definition gt (a b : Q) : bool := negb (Qle_bool a b).

(** *** Rounding *)

(** Nearest integer, ties to the even neighbour. *)
Definition round_half_even (q : Q) : Z :=
  let f := Qfloor q in
  match Qcompare (q - inject_Z f) (1 # 2) with
  | Lt => f
  | Gt => f + 1
  | Eq => if Z.even f then f else f + 1
  end.

(** [round(q, 3)] on a float. *)
Definition round3 (q : Q) : Q :=
  Qred (inject_Z (round_half_even (q * 1000)) / 1000).

(** [round(v, 3)]: an [int] is returned unchanged, a [float] is rounded. *)
Definition round_3 (v : value) : value :=
  match v with
  | PyFloat q => PyFloat (round3 q)
  | other => other
  end.

(** *** Formatting numbers

    [str] of an [int] is its decimal numeral.  [str] of a [float] is modelled
    by the positional form (integer part, point, at least one fractional
    digit), which is what Python prints for finite decimals of magnitude
    between 1e-4 and 1e16; exponent notation is outside the model. *)

Definition str_int (z : Z) : string := NilZero.string_of_int (Z.to_int z).

Definition digit_char (d : Z) : ascii := ascii_of_nat (48 + Z.to_nat d).

Fixpoint frac_digits (fuel : nat) (num den : Z) : string :=
  match fuel with
  | O => ""
  | S fuel' =>
      if Z.eqb num 0 then ""
      else String (digit_char (num * 10 / den))
                  (frac_digits fuel' (num * 10 mod den) den)
  end.

Definition str_float (q : Q) : string :=
  let a := Qabs q in
  let ip := Qfloor a in
  let num := Qnum a - ip * Zpos (Qden a) in
  let fr := frac_digits 17 num (Zpos (Qden a)) in
  (if Z.ltb (Qnum q) 0 then "-" else "")
    ++ str_int ip ++ "." ++ (if String.eqb fr "" then "0" else fr).

(** [str(v)], as substituted into an f-string. *)
Definition str (v : value) : string :=
  match v with
  | PyNone => "None"
  | PyInt z => str_int z
  | PyFloat q => str_float q
  | PyStr s => s
  end.

(** *** Strings *)

(** ASCII white space, the separators of [str.split()] and [str.strip()]. *)
Definition is_space (c : ascii) : bool :=
  let n := nat_of_ascii c in
  ((9 <=? n) && (n <=? 13) || (28 <=? n) && (n <=? 32))%nat.

(** [s.split()]: maximal runs of non-blank characters. *)
Fixpoint split_aux (s : string) (cur : string) : list string :=
  match s with
  | EmptyString => if String.eqb cur "" then [] else [cur]
  | String c rest =>
      if is_space c
      then (if String.eqb cur "" then split_aux rest ""
            else cur :: split_aux rest "")
      else split_aux rest (cur ++ String c "")
  end.

Definition split (s : string) : list string := split_aux s "".

(** [s.strip()] *)
Fixpoint lstrip (s : string) : string :=
  match s with
  | String c rest => if is_space c then lstrip rest else s
  | EmptyString => ""
  end.

Fixpoint rstrip (s : string) : string :=
  match s with
  | EmptyString => ""
  | String c rest =>
      let rest' := rstrip rest in
      if is_space c && String.eqb rest' "" then "" else String c rest'
  end.

Definition strip (s : string) : string := rstrip (lstrip s).

(** [needle in hay] *)
Fixpoint contains (needle hay : string) : bool :=
  String.prefix needle hay ||
  match hay with
  | EmptyString => false
  | String _ rest => contains needle rest
  end.

(** [s[n:]] *)
Fixpoint drop (n : nat) (s : string) : string :=
  match n, s with
  | O, _ => s
  | S n', String _ rest => drop n' rest
  | S _, EmptyString => ""
  end.

(** *** Parsing floats

    [float(s)] for the plain decimal syntax (optional sign, digits, optional
    point and digits); [None] stands for the [ValueError] raised on anything
    else.  Exponents, [inf] and [nan] are outside the model. *)

Definition digit_of (c : ascii) : option Z :=
  let n := nat_of_ascii c in
  if ((48 <=? n) && (n <=? 57))%nat then Some (Z.of_nat (n - 48)) else None.

(** Digits after the point: [acc] is the value so far, [scale] the power of
    ten it is divided by. *)
Fixpoint parse_frac (s : string) (acc : Z) (scale : positive) : option Q :=
  match s with
  | EmptyString => Some (acc # scale)
  | String c rest =>
      match digit_of c with
      | Some d => parse_frac rest (acc * 10 + d) (scale * 10)
      | None => None
      end
  end.

(** Digits before the point; [seen] records that at least one digit was read. *)
Fixpoint parse_int (s : string) (acc : Z) (seen : bool) : option Q :=
  match s with
  | EmptyString => if seen then Some (inject_Z acc) else None
  | String c rest =>
      match digit_of c with
      | Some d => parse_int rest (acc * 10 + d) true
      | None =>
          if Ascii.eqb c "."
          then (if seen || negb (String.eqb rest "")
                then parse_frac rest acc 1 else None)
          else None
      end
  end.

Definition float (s : string) : option Q :=
  match s with
  | String "-" rest => option_map Qopp (parse_int rest 0 false)
  | String "+" rest => parse_int rest 0 false
  | _ => parse_int s 0 false
  end.

End Py.


(** ** Exceptions *)

Inductive exn : Type :=
| ValueError (msg : string)
| BeyondLimits (position lo hi : Q)
    (** the [ValueError] of [move_to], whose message quotes the request and
        the [min] and [max] of the active limits *)
| TypeError (msg : string)
| RuntimeError (msg : string)
| RecursionError
| TimeoutError (msg : string) (bound : Q)
| IndexError
| UnboundLocalError (name : string)
| VisaIOError
| Diverged
    (** not a Python exception: a loop of the model ran out of fuel *).

(** What [except RuntimeError:] catches ([RecursionError] is a subclass). *)
Definition is_RuntimeError (e : exn) : bool :=
  match e with RuntimeError _ | RecursionError => true | _ => false end.

(** ** State and error monad

    A computation transforms a state and either returns or raises; the state
    reached when it raises is kept (what was transmitted stays transmitted). *)

Definition M (S A : Type) : Type := S -> (exn + A) * S.

Definition ret {S A} (a : A) : M S A := fun s => (inr a, s).

Definition raise {S A} (e : exn) : M S A := fun s => (inl e, s).

Definition bind {S A B} (m : M S A) (k : A -> M S B) : M S B :=
  fun s => match m s with
           | (inl e, s') => (inl e, s')
           | (inr a, s') => k a s'
           end.

(** [try: m  except <class>: h] *)
Definition try_except {S A} (m : M S A) (catches : exn -> bool) (h : M S A)
  : M S A :=
  fun s => match m s with
           | (inl e, s') => if catches e then h s' else (inl e, s')
           | ok => ok
           end.

(** A pure step that may raise. *)
Definition lift {S A} (r : exn + A) : M S A := fun s => (r, s).

Declare Scope py_scope.
Delimit Scope py_scope with py.
Notation "x <- m ;; k" := (bind m (fun x => k))
  (at level 61, m at next level, right associativity) : py_scope.
Notation "m ;; k" := (bind m (fun _ => k))
  (at level 61, right associativity) : py_scope.
Local Open Scope py_scope.

(** ** The serial link

    [sent] is the log of command lines written so far, oldest first;
    [pending] the replies the controller will give to the next exchanges.
    An exchange with no reply left is a transport time-out. *)

Record Serial : Type := mkSerial {
  sent : list string;
  pending : list string
}.

(** [device.query(cmd)]: write one line, read one line. *)
Definition query (cmd : string) : M Serial string :=
  fun d =>
    match pending d with
    | [] => (inl VisaIOError, mkSerial (sent d ++ [cmd]) [])
    | r :: rs => (inr r, mkSerial (sent d ++ [cmd]) rs)
    end.

(** ** Protocol driver: class [MS2000] *)

Module MS2000.

(** *** Connection ([__init__]) *)

(** A serial resource known to the resource manager: its name and the link
    that [open_resource] gives access to ([None] when opening raises). *)
Record Resource : Type := mkResource {
  res_name : string;
  res_open : option Serial
}.

(** The resource manager and the console: the resources listed, the names
    for which [open_resource] has opened a session (oldest first), and the
    lines written by [print]. *)
Record Manager : Type := mkManager {
  listed : list Resource;
  sessions : list string;
  stdout : list string
}.

(** The object under construction: [__init__] assigns [self.stage] and
    nothing else. *)
Record t : Type := mkMS2000 {
  stage : Serial
}.

(** What the probing loop leaves behind: the listed resources with their
    links as they now are, the sessions it opened, the local variable [idn]
    ([None] while unbound) and, once [found] is set, the locals
    [resourceName] and [idn] with the device assigned to [self.stage]. *)
Record Probed : Type := mkProbed {
  probed : list Resource;
  opened : list string;
  idn_local : option string;
  found : option (string * string * Serial)
}.

(** The probing loop of [__init__] when [resourceName is None]. *)
Fixpoint probe (resources : list Resource) (idn : option string) : Probed :=
  match resources with
  | [] => mkProbed [] [] idn None
  | resource :: rest =>
      match res_open resource with
      | None =>                                        (* except: continue *)
          let p := probe rest idn in
          mkProbed (resource :: probed p) (opened p) (idn_local p) (found p)
      | Some device =>
          match query "WHO" device with
          | (inl _, device') =>                        (* except: continue *)
              let p := probe rest idn in
              mkProbed (mkResource (res_name resource) (Some device')
                          :: probed p)
                       (res_name resource :: opened p)
                       (idn_local p) (found p)
          | (inr idn', device') =>
              (* if True: ... found = True; break *)
              mkProbed (mkResource (res_name resource) (Some device') :: rest)
                       [res_name resource]
                       (Some idn')
                       (Some (res_name resource, idn', device'))
          end
      end
  end.

Definition name_in (n : string) (resources : list Resource) : bool :=
  existsb (fun r => String.eqb n (res_name r)) resources.

Fixpoint open_resource (n : string) (resources : list Resource)
  : exn + Serial :=
  match resources with
  | [] => inl VisaIOError
  | r :: rest =>
      if String.eqb n (res_name r)
      then match res_open r with Some d => inr d | None => inl VisaIOError end
      else open_resource n rest
  end.

(** The link of the resource of that name after an exchange on it. *)
Fixpoint set_link (n : string) (d : Serial) (resources : list Resource)
  : list Resource :=
  match resources with
  | [] => []
  | r :: rest =>
      if String.eqb n (res_name r)
      then mkResource (res_name r) (Some d) :: rest
      else r :: set_link n d rest
  end.

Definition init (resourceName : option string) : M Manager t :=
  fun rm =>
    match resourceName with
    | None =>
        let p := probe (listed rm) None in
        match found p with
        | Some (resourceName, idn, device) =>
            (inr (mkMS2000 device),
             mkManager (probed p) (sessions rm ++ opened p)
                       (stdout rm
                          ++ ["Found " ++ idn ++ " at: " ++ resourceName]))
        | None =>
            (inl match idn_local p with
                 | Some idn =>
                     RuntimeError ("Instrument not found, idn = " ++ idn)
                 | None => UnboundLocalError "idn"
                 end,
             mkManager (probed p) (sessions rm ++ opened p) (stdout rm))
        end
    | Some name =>
        if name_in name (listed rm) then
          match open_resource name (listed rm) with
          | inl e => (inl e, rm)
          | inr device =>
              match query "WHO" device with
              | (inl e, device') =>
                  (inl e,
                   mkManager (set_link name device' (listed rm))
                             (sessions rm ++ [name]) (stdout rm))
              | (inr who, device') =>
                  (if negb (Py.contains "ASI-MS2000" who)
                   then inl (ValueError "Not an ASI MS2000 stage controller.")
                   else inr (mkMS2000 device'),
                   mkManager (set_link name device' (listed rm))
                             (sessions rm ++ [name]) (stdout rm))
              end
          end
        else (inl (ValueError "Instrument address not found,,"), rm)
    end.

(** *** Operations

    Every method acts on [self.stage]; it is a computation over [Serial]. *)

(** [status()]: true when the controller is not moving. *)
Definition status : M Serial bool :=
  r <- query "STATUS" ;;
  ret (negb (Py.contains "B" (Py.strip r))).

(** The shared suffix loop [if x: instruction += " X<s>"] ... *)
Definition axes_suffix (sx sy sz : string) (x y z : bool) : string :=
  (if x then sx else "") ++ (if y then sy else "") ++ (if z then sz else "").

(** [[float(coord[k:]) for coord in tokens]] *)
Fixpoint floats (k : nat) (tokens : list string) : exn + list Q :=
  match tokens with
  | [] => inr []
  | coord :: rest =>
      match Py.float (Py.drop k coord) with
      | None => inl (ValueError "could not convert string to float")
      | Some q =>
          match floats k rest with
          | inl e => inl e
          | inr qs => inr (q :: qs)
          end
      end
  end.

(** [limits(x, y, z)] *)
Definition limits (x y z : bool) : M Serial (list (Q * Q)) :=
  if negb (x || y || z) then raise (ValueError "Must specify at least one axis")
  else
    responsesLow <- query ("SETLOW" ++ axes_suffix " X?" " Y?" " Z?" x y z) ;;
    lowerLims <- lift (floats 2 (tl (Py.split responsesLow))) ;;
    responsesHigh <- query ("SETUP" ++ axes_suffix " X?" " Y?" " Z?" x y z) ;;
    upperLims <- lift (floats 2 (tl (Py.split responsesHigh))) ;;
    ret (combine lowerLims upperLims).

(** [setLimit(axis, lower, upper)] *)
Definition setLimit (axis : string) (lower upper : Py.value) : M Serial unit :=
  if negb (existsb (String.eqb axis) ["X"; "Y"; "Z"])
  then raise (ValueError "Axis must be X, Y or Z")
  else if negb (Py.truthy (Py.or_ lower upper))
  then raise (ValueError "Must specify at least an upper or lower limit")
  else
    (if Py.is_not_None lower then
       if negb (Py.is_numeric lower)
       then raise (TypeError (axis ++ " limit must be numeric type!"))
       else (_ <- query ("SETLOW " ++ axis ++ "=" ++ Py.str lower) ;; ret tt)
     else ret tt) ;;
    (if Py.is_not_None upper then
       if negb (Py.is_numeric upper)
       then raise (TypeError (axis ++ " limit must be numeric type!"))
       else (_ <- query ("SETUP " ++ axis ++ "=" ++ Py.str upper) ;; ret tt)
     else ret tt).

(** [zero()] *)
Definition zero : M Serial unit :=
  _ <- query "ZERO" ;; ret tt.

(** [position(x, y, z)].  The retry is the recursive call [self.position()],
    with the default arguments; [depth] is the number of stack frames left
    before the interpreter raises [RecursionError]. *)
Fixpoint position (depth : nat) (x y z : bool) : M Serial (list Q) :=
  match depth with
  | O => raise RecursionError
  | S depth' =>
      if negb (x || y || z)
      then raise (ValueError "Must specify at least one axis")
      else
        responses <- query ("WHERE" ++ axes_suffix " X" " Y" " Z" x y z) ;;
        coords <- lift (floats 0 (tl (Py.split responses))) ;;
        if (length coords =? Nat.b2n x + Nat.b2n y + Nat.b2n z)%nat
        then ret coords
        else (* try again *) position depth' true true true
  end.

(** The loop of [move] over [zip(("X","Y","Z"), (x, y, z))]. *)
Fixpoint move_fields (instruction : string) (args : list (string * Py.value))
  : exn + string :=
  match args with
  | [] => inr instruction
  | (axis, coord) :: rest =>
      if Py.is_not_None coord then
        if negb (Py.is_numeric coord)
        then inl (TypeError (axis ++ " coordinate must be numeric type!"))
        else move_fields
               (instruction ++ " " ++ axis ++ "=" ++ Py.str (Py.round_3 coord))
               rest
      else move_fields instruction rest
  end.

(** [move(x, y, z, relative)] *)
Definition move (x y z : Py.value) (relative : bool) : M Serial unit :=
  if negb (Py.is_not_None x || Py.is_not_None y || Py.is_not_None z)
  then raise (ValueError "Must specify at least one axis")
  else
    instruction <- lift (move_fields (if negb relative then "MOVE" else "MOVREL")
                                     [("X", x); ("Y", y); ("Z", z)]) ;;
    idle <- status ;;
    if negb idle then raise (RuntimeError "Device is busy moving!")
    else (_ <- query instruction ;; ret tt).

(** [home()] *)
Definition home : M Serial unit :=
  move (Py.PyInt 0) (Py.PyInt 0) (Py.PyInt 0) false.

(** [getSpeed(x, y, z)] *)
Definition getSpeed (x y z : bool) : M Serial (list Q) :=
  if negb (x || y || z) then raise (ValueError "Must specify at least one axis")
  else
    responses <- query ("SPEED" ++ axes_suffix " X?" " Y?" " Z?" x y z) ;;
    lift (floats 2 (tl (Py.split responses))).

(** The loop of [speed] over [zip(("X","Y","Z"), (x, y, z))]. *)
Fixpoint speed_fields (instruction : string) (args : list (string * Py.value))
  : exn + string :=
  match args with
  | [] => inr instruction
  | (axis, coord) :: rest =>
      if Py.is_not_None coord then
        if negb (Py.is_numeric coord)
        then inl (TypeError (axis ++ " coordinate must be numeric type!"))
        else speed_fields (instruction ++ " " ++ axis ++ "=" ++ Py.str coord) rest
      else speed_fields instruction rest
  end.

(** [speed(x, y, z)] *)
Definition speed (x y z : Py.value) : M Serial unit :=
  if negb (Py.truthy (Py.or_ (Py.or_ x y) z))
  then raise (ValueError "Must specify at least one axis")
  else
    instruction <- lift (speed_fields "SPEED" [("X", x); ("Y", y); ("Z", z)]) ;;
    idle <- status ;;
    if negb idle then raise (RuntimeError "Device is busy moving!")
    else (_ <- query instruction ;; ret tt).

End MS2000.


(** ** The driver as seen by the facade

    [ASILinearMotor] reaches the driver only through
    [self._controller._stage.<method>(...)]; any object with these methods
    will do.  The class below is that duck-typed interface. *)

Class Driver (D : Type) : Type := {
  drv_status : M D bool;
  drv_position : bool -> bool -> bool -> M D (list Q);
  drv_limits : bool -> bool -> bool -> M D (list (Q * Q));
  drv_move : Py.value -> Py.value -> Py.value -> bool -> M D unit;
  drv_home : M D unit
}.

(** The real driver, with [depth] stack frames available to [position]. *)
Definition MS2000_Driver (depth : nat) : Driver Serial := {|
  drv_status := MS2000.status;
  drv_position := MS2000.position depth;
  drv_limits := MS2000.limits;
  drv_move := MS2000.move;
  drv_home := MS2000.home
|}.

(** ** Stage facade: classes [ASILinearMotor] and [MS2000Stage] *)

(** [self.axis] *)
Inductive axis : Type := x_axis | y_axis | z_axis.

(** [{'x': 0, 'y': 1, 'z': 2}[self.axis]] *)
Definition axis_idx (a : axis) : nat :=
  match a with x_axis => 0 | y_axis => 1 | z_axis => 2 end%nat.

(** [units.Position]: the framework's quantities are floats in the SI base
    unit, seconds for [units.Time] ([Time('50 ms')] is [0.05]) and metres
    for [units.Position]; the facade itself reckons 10000000 native
    increments as 1000 mm.  A position read in millimetres, and the position
    of a length given in millimetres. *)
Definition millimetres (position : Q) : Q := position * 1000.
Definition Position_mm (t : Q) : Q := t / 1000.

(** [units.PositionRange]: a pair of bounds; [within_range] is the closed
    interval test. *)
Record PositionRange : Type := mkRange { min : Q; max : Q }.

(** [units.PositionRange(lo, hi)], the constructor call.  The class belongs
    to the framework; its constructor refuses bounds of which the first is
    not below the second, with a [ValueError]. *)
Definition PositionRange_new (lo hi : Q) : exn + PositionRange :=
  if Py.lt lo hi then inr (mkRange lo hi)
  else inl (ValueError "min must be less than max").

Definition within_range (r : PositionRange) (p : Q) : bool :=
  Qle_bool (min r) p && Qle_bool p (max r).

(** The fields of one [ASILinearMotor] object.  [position_limits_cache] is
    the slot filled by [@cached_property position_limits]. *)
Record Motor : Type := mkMotor {
  _position_limits : option PositionRange;
  position_limits_cache : option PositionRange;
  _prev_position : option Q;
  _last_move_timestamp : option Q
}.

(** What is written down, in the order it happens, of a run of the
    facade: each call of a driver method, by its name, and each sleep. *)
Inductive journal_entry : Type :=
| Called (method : string)
| Slept (d : Q).

(** Everything a method of the facade can touch: the shared driver, the
    clock read by [time.perf_counter()] and advanced by [time.sleep], the
    list of sleeps performed (oldest first), the three axis objects, and
    the journal of driver calls and sleeps (oldest first). *)
Record World (D : Type) : Type := mkWorld {
  _stage : D;
  clock : Q;
  slept : list Q;
  motors : axis -> Motor;
  journal : list journal_entry
}.
Arguments mkWorld {D}.
Arguments _stage {D}.
Arguments clock {D}.
Arguments slept {D}.
Arguments motors {D}.
Arguments journal {D}.

Definition axis_eqb (a b : axis) : bool :=
  match a, b with
  | x_axis, x_axis | y_axis, y_axis | z_axis, z_axis => true
  | _, _ => false
  end.

Section Facade.

Context {D : Type} `{Driver D}.

(** Run the driver method of that name on [self._controller._stage]. *)
Definition on_stage {A} (method : string) (m : M D A) : M (World D) A :=
  fun w => let (r, d) := m (_stage w) in
           (r, mkWorld d (clock w) (slept w) (motors w)
                       (journal w ++ [Called method])).

(** [time.sleep(d)] *)
Definition sleep (d : Q) : M (World D) unit :=
  fun w => (inr tt,
            mkWorld (_stage w) (Qred (clock w + d)) (slept w ++ [d]) (motors w)
                    (journal w ++ [Slept d])).

(** [time.perf_counter()] *)
Definition perf_counter : M (World D) Q :=
  fun w => (inr (clock w), w).

Definition get_motor (a : axis) : M (World D) Motor :=
  fun w => (inr (motors w a), w).

Definition set_motor (a : axis) (m : Motor) : M (World D) unit :=
  fun w => (inr tt,
            mkWorld (_stage w) (clock w) (slept w)
                    (fun b => if axis_eqb b a then m else motors w b)
                    (journal w)).

(** [t[i]] on a tuple *)
Definition index {A} (t : list A) (i : nat) : M (World D) A :=
  match nth_error t i with
  | Some v => ret v
  | None => raise IndexError
  end.

(** Class constants, in seconds. *)
Definition HOME_TIMEOUT : Q := 30.
Definition MOVE_TIMEOUT : Q := 30.
Definition POLLING_PERIOD : Q := 50 / 1000.

(** The literal [10e6]. *)
Definition ten_e6 : Q := 10000000.

(** [position] (property) *)
Definition position (self : axis) : M (World D) Q :=
  pos_tenths_um <- on_stage "position" (drv_position true true true) ;;
  pos_tenths_um <- index pos_tenths_um (axis_idx self) ;;
  let position := (pos_tenths_um / ten_e6)%Q in
  m <- get_motor self ;;
  set_motor self (mkMotor (_position_limits m) (position_limits_cache m)
                          (Some position) (_last_move_timestamp m)) ;;
  ret position.

(** [position_limits] (cached property) *)
Definition position_limits (self : axis) : M (World D) PositionRange :=
  m <- get_motor self ;;
  match position_limits_cache m with
  | Some r => ret r
  | None =>
      r <- match _position_limits m with
           | None =>
               limits <- on_stage "limits" (drv_limits true true true) ;;
               lu <- index limits (axis_idx self) ;;
               lift (PositionRange_new (fst lu / ten_e6) (snd lu / ten_e6))
           | Some r => ret r
           end ;;
      m <- get_motor self ;;
      set_motor self (mkMotor (_position_limits m) (Some r)
                              (_prev_position m) (_last_move_timestamp m)) ;;
      ret r
  end.

(** [moving] (property) *)
Definition moving : M (World D) bool :=
  idle <- on_stage "status" drv_status ;;
  ret (negb idle).

(** The polling loop shared by [move_to] and [home]:
    [while self.moving: if perf_counter() - start_time > T: raise ...; sleep(P)] *)
Fixpoint wait_while_moving (fuel : nat) (start_time timeout : Q) (msg : string)
  : M (World D) unit :=
  match fuel with
  | O => raise Diverged
  | S fuel' =>
      busy <- moving ;;
      if busy then
        now <- perf_counter ;;
        if Py.gt (now - start_time) timeout
        then raise (TimeoutError msg timeout)
        else sleep POLLING_PERIOD ;;
             wait_while_moving fuel' start_time timeout msg
      else ret tt
  end.

(** [**{self.axis: v}] for the driver's [x], [y], [z] parameters *)
Definition kwargs (self : axis) (v : Py.value)
  : Py.value * Py.value * Py.value :=
  match self with
  | x_axis => (v, Py.PyNone, Py.PyNone)
  | y_axis => (Py.PyNone, v, Py.PyNone)
  | z_axis => (Py.PyNone, Py.PyNone, v)
  end.

Definition stage_move (self : axis) (v : Py.value) (relative : bool)
  : M (World D) unit :=
  let '(vx, vy, vz) := kwargs self v in
  on_stage "move" (drv_move vx vy vz relative).

(** [move_to(position, blocking)] *)
Definition move_to (fuel : nat) (self : axis) (position : Q) (blocking : bool)
  : M (World D) unit :=
  lim <- position_limits self ;;
  if negb (within_range lim position)
  then raise (BeyondLimits position (min lim) (max lim))
  else
    let pos_tenths_um := Py.round3 (position * ten_e6) in
    stage_move self (Py.PyFloat pos_tenths_um) false ;;
    (if blocking then
       start_time <- perf_counter ;;
       wait_while_moving fuel start_time MOVE_TIMEOUT "Move timed out after"
     else ret tt) ;;
    now <- perf_counter ;;
    m <- get_motor self ;;
    set_motor self (mkMotor (_position_limits m) (position_limits_cache m)
                            (_prev_position m) (Some now)).

(** The argument of [move_velocity]: a [units.Velocity] or something else. *)
Inductive velocity_arg : Type :=
| Velocity (v : Q)
| NotVelocity (v : Py.value).

(** [move_velocity(velocity)] *)
Definition move_velocity (self : axis) (velocity : velocity_arg)
  : M (World D) unit :=
  match velocity with
  | NotVelocity _ => raise (ValueError "velocity must be given in units.Velocity")
  | Velocity v =>
      let direction := if Py.gt v 0 then 1 else -1 in
      let large_distance_tenths_um := direction * 10000000 in
      stage_move self (Py.PyInt large_distance_tenths_um) true
  end.

(** [stop()] *)
Definition stop (self : axis) : M (World D) unit :=
  current_pos_tenths_um <- on_stage "position" (drv_position true true true) ;;
  current_pos_tenths_um <- index current_pos_tenths_um (axis_idx self) ;;
  try_except
    (stage_move self (Py.PyFloat current_pos_tenths_um) false)
    is_RuntimeError
    (sleep (1 / 10) ;;
     current_pos_tenths_um <- on_stage "position" (drv_position true true true) ;;
     current_pos_tenths_um <- index current_pos_tenths_um (axis_idx self) ;;
     stage_move self (Py.PyFloat current_pos_tenths_um) false).

(** [home(blocking)] *)
Definition home (fuel : nat) (self : axis) (blocking : bool) : M (World D) unit :=
  on_stage "home" drv_home ;;
  if blocking then
    start_time <- perf_counter ;;
    wait_while_moving fuel start_time HOME_TIMEOUT "Homing timed out after"
  else ret tt.

(** [homed] (property) *)
Definition homed (self : axis) : M (World D) bool :=
  current_pos <- position self ;;
  ret (Py.lt (Qabs current_pos) 1).

(** [ASILinearMotor.__init__(stage_controller, axis, position_limits)].
    Configured limits are taken as the range already built from the
    dictionary: [None] stands for no configuration. *)
Definition ASILinearMotor_init (self : axis) (position_limits : option PositionRange)
  : M (World D) unit :=
  set_motor self (mkMotor position_limits None None None) ;;
  sleep (1 / 10) ;;
  _ <- position self ;;
  ret tt.

(** [MS2000Stage.__init__], from the point where [self._stage] is connected:
    the three axis objects are built, then every axis that does not read as
    homed is sent home without waiting. *)
Definition home_if_not_homed (fuel : nat) (self : axis) : M (World D) unit :=
  h <- homed self ;;
  if negb h then home fuel self false else ret tt.

Definition MS2000Stage_init (fuel : nat)
    (x_config y_config z_config : option PositionRange) : M (World D) unit :=
  ASILinearMotor_init x_axis x_config ;;
  ASILinearMotor_init y_axis y_config ;;
  ASILinearMotor_init z_axis z_config ;;
  home_if_not_homed fuel x_axis ;;
  home_if_not_homed fuel y_axis ;;
  home_if_not_homed fuel z_axis.

End Facade.

(** ** Worlds to run the facade in *)

(** An axis object before its constructor has run. *)
Definition blank_motor : Motor := mkMotor None None None None.

(** Clock at zero, nothing slept, no axis object initialised. *)
Definition fresh_world {D} (d : D) : World D :=
  mkWorld d 0 [] (fun _ => blank_motor) [].

(** The same around the real driver: nothing sent yet, the given replies
    pending. *)
Definition serial_world (replies : list string) : World Serial :=
  fresh_world (mkSerial [] replies).

(** ** A test double for the driver

    The scenario driver of the blocking-move tests: [busy_script] lists what
    the successive status polls report ([true] = busy; idle once the script
    is used up), [status_polls] counts them, and moves are recorded instead
    of transmitted. *)

Record Stub : Type := mkStub {
  busy_script : list bool;
  status_polls : nat;
  moves : list (Py.value * Py.value * Py.value * bool)
}.

Definition Stub_Driver : Driver Stub := {|
  drv_status := fun s =>
    match busy_script s with
    | [] => (inr true, mkStub [] (S (status_polls s)) (moves s))
    | b :: rest => (inr (negb b), mkStub rest (S (status_polls s)) (moves s))
    end;
  drv_position := fun _ _ _ => ret [0%Q; 0%Q; 0%Q];
  drv_limits := fun _ _ _ => ret [];
  drv_move := fun vx vy vz relative s =>
    (inr tt, mkStub (busy_script s) (status_polls s)
                    (moves s ++ [(vx, vy, vz, relative)]));
  drv_home := fun s =>
    (inr tt, mkStub (busy_script s) (status_polls s)
                    (moves s ++ [(Py.PyInt 0, Py.PyInt 0, Py.PyInt 0, false)]))
|}.

(** ** Vocabulary of the statements *)

(** The two limit queries of [limits(x=True, y=True, z=True)]. *)
Definition limit_query (c : string) : Prop :=
  c = "SETLOW X? Y? Z?" \/ c = "SETUP X? Y? Z?".

(** A world whose three axis objects carry the given configured limits. *)
Definition configured_world {D} (d : D) (lim : option PositionRange) : World D :=
  mkWorld d 0 [] (fun _ => mkMotor lim None None None) [].

(** The keyword [{self.axis: v}] selects, as the driver's loop over
    [zip(("X","Y","Z"), (x, y, z))] names it. *)
Definition axis_letter (a : axis) : string :=
  match a with x_axis => "X" | y_axis => "Y" | z_axis => "Z" end.

(** The line [move] builds for a single numeric field. *)
Definition move_line (relative : bool) (a : axis) (v : Py.value) : string :=
  (if relative then "MOVREL" else "MOVE")
    ++ " " ++ axis_letter a ++ "=" ++ Py.str (Py.round_3 v).

(** A status reply that reads as busy. *)
Definition busy_reply (r : string) : bool := Py.contains "B" (Py.strip r).

(** The scenario of the limit tests: limits configured as -5 .. 5, nothing
    pending on the link. *)
Definition limits_scenario : World Serial :=
  configured_world (mkSerial [] []) (Some (mkRange (-5) 5)).

(** The world left by a single-axis move accepted by an idle controller:
    the status query and the move line are appended to the log, their two
    replies are consumed. *)
Definition after_move (w : World Serial) (sent0 rest : list string)
    (line : string) : World Serial :=
  mkWorld (mkSerial (sent0 ++ ["STATUS"; line]) rest)
          (clock w) (slept w) (motors w) (journal w ++ [Called "move"]).

(** An idle controller with two replies pending. *)
Definition idle_scenario : World Serial :=
  fresh_world (mkSerial [] ["N"; ":A"]).

(** The coordinates [position] reads off a reply line:
    [(float(c) for c in reply.split()[1:])]. *)
Definition coords_of (reply : string) : exn + list Q :=
  MS2000.floats 0 (tl (Py.split reply)).

(** The world the real driver's facade is in after [extra] further lines
    were transmitted, [rest] is still pending, [naps] were slept, and the
    driver calls and sleeps [entries] were entered in the journal. *)
Definition advanced (w : World Serial) (sent0 extra rest : list string)
    (naps : list Q) (now : Q) (entries : list journal_entry) : World Serial :=
  mkWorld (mkSerial (sent0 ++ extra) rest) now (slept w ++ naps) (motors w)
          (journal w ++ entries).

(** A jog in progress on the z axis: the first move-to-current-position is
    refused, the second accepted. *)
Definition stop_scenario : World Serial :=
  fresh_world (mkSerial [] [":A 1 2 3.5"; "B"; ":A 1 2 4.5"; "N"; ":A"]).

(** Start-up with the x axis two metres from the origin and the controller
    still moving: four position replies (three axis constructors, one
    [homed] read), then a busy status. *)
Definition busy_startup : World Serial :=
  fresh_world (mkSerial [] [":A 20000000 0 0"; ":A 20000000 0 0";
                            ":A 20000000 0 0"; ":A 20000000 0 0"; "B"]).

Definition busy_startup_built : World Serial :=
  Eval vm_compute in
    snd (bind (@ASILinearMotor_init _ (MS2000_Driver 100) x_axis None)
           (fun _ => bind (@ASILinearMotor_init _ (MS2000_Driver 100) y_axis None)
           (fun _ => @ASILinearMotor_init _ (MS2000_Driver 100) z_axis None))
           busy_startup).

Definition busy_startup_read : World Serial :=
  Eval vm_compute in
    snd (@homed _ (MS2000_Driver 100) x_axis busy_startup_built).

Definition busy_startup_end : World Serial :=
  Eval vm_compute in
    snd (@on_stage Serial unit "home" (@drv_home _ (MS2000_Driver 100))
           busy_startup_read).

(** One serial port answering the identity query with something that is
    not the controller's model string. *)
Definition foreign_port : list MS2000.Resource :=
  [MS2000.mkResource "ASRL1::INSTR" (Some (mkSerial [] ["HELLO"]))].

(** A reply that reads as coordinates, but not as three of them. *)
Definition wrong_count (reply : string) : Prop :=
  exists cs, coords_of reply = inr cs /\ length cs <> 3%nat.

(** One [ AXIS=value] field of a move or speed line; nothing for [None]. *)
Definition field (a : string) (v : Py.value) : string :=
  if Py.is_not_None v then " " ++ a ++ "=" ++ Py.str v else "".

Fixpoint fields (args : list (string * Py.value)) : string :=
  match args with
  | [] => ""
  | (a, v) :: rest => field a v ++ fields rest
  end.

(** An argument the field loops accept: [None] or a number. *)
Definition numeric_or_None (v : Py.value) : bool :=
  negb (Py.is_not_None v) || Py.is_numeric v.

(** *** Vocabulary for the polling loop *)

Section Polls.

Context {D : Type} `{Driver D}.

(** [busy_polls k d d']: [k] status polls in a row, starting from driver
    state [d], all report the controller moving, and leave the driver in
    state [d']. *)
Fixpoint busy_polls (k : nat) (d d' : D) : Prop :=
  match k with
  | O => d' = d
  | S k' => exists d1, drv_status d = (inr false, d1) /\ busy_polls k' d1 d'
  end.

(** The poll after [k] busy ones is the first to report idle. *)
Definition first_idle_after (k : nat) (d d'' : D) : Prop :=
  exists d', busy_polls k d d' /\ drv_status d' = (inr true, d'').

(** The poll after [k] busy ones reports busy as well. *)
Definition still_busy_after (k : nat) (d d'' : D) : Prop :=
  exists d', busy_polls k d d' /\ drv_status d' = (inr false, d'').

End Polls.

(** What [k] busy polls, each followed by a sleep of one polling period,
    and one more poll enter in the journal. *)
Fixpoint poll_entries (k : nat) : list journal_entry :=
  match k with
  | O => [Called "status"]
  | S k' => Called "status" :: Slept POLLING_PERIOD :: poll_entries k'
  end.

(** Time slept by the loop before its poll number [i] (counting from 0). *)
Definition elapsed (i : nat) : Q := inject_Z (Z.of_nat i) * POLLING_PERIOD.

(** The scenario of the blocking-move test: limits -5 .. 5, a driver stub
    that reports busy twice and then idle. *)
Definition blocking_scenario : World Stub :=
  configured_world (mkStub [true; true; false] 0 []) (Some (mkRange (-5) 5)).

Definition blocking_scenario_limits : World Stub :=
  Eval vm_compute in
    snd (@position_limits _ Stub_Driver x_axis blocking_scenario).

Definition blocking_scenario_moved : World Stub :=
  Eval vm_compute in
    snd (@stage_move _ Stub_Driver x_axis (Py.PyFloat 20000000) false
           blocking_scenario_limits).

(** Limits configured as -5 .. 5 and an idle controller. *)
Definition idle_limits_scenario : World Serial :=
  configured_world (mkSerial [] ["N"; ":A"]) (Some (mkRange (-5) 5)).

(** The controller reporting 10000 native units on x. *)
Definition at_10000_scenario : World Serial :=
  serial_world [":A 10000 0 0"].

(** ** Facade: the speed read *)

(** [max_velocity] (property, getter), on the real driver: only the axis's
    own speed is requested, and the reply is indexed with [axis_idx]. *)
Definition max_velocity (self : axis) : M (World Serial) Q :=
  speeds <- on_stage "getSpeed"
              (MS2000.getSpeed (axis_eqb self x_axis)
                                      (axis_eqb self y_axis)
                                      (axis_eqb self z_axis)) ;;
  speed_mm_per_s <- index speeds (axis_idx self) ;;
  ret speed_mm_per_s.

(** ** The stand-alone control panel: [tests/StageControl.py] and
    [tests/stage_only_gui.py]

    Widgets and layout are left out; what is embedded is what the buttons
    compute and what the callbacks do to the driver.  The panel's state is
    the driver's link, the sleeps performed and the messages shown or
    printed. *)

Inductive gui_event : Type :=
| ShowError (title : string) (e : exn)
    (** [messagebox.showerror(title, ...)] quoting exception [e] *)
| ShowInvalidInput
    (** [messagebox.showerror("Invalid input", "Please enter valid numbers")] *)
| Printed (text : string) (e : exn).

Record Panel : Type := mkPanel {
  panel_stage : Serial;
  panel_slept : list Q;
  panel_events : list gui_event
}.

(** Run a driver method on [self.stage]. *)
Definition on_panel_stage {A} (m : M Serial A) : M Panel A :=
  fun g => let (r, d) := m (panel_stage g) in
           (r, mkPanel d (panel_slept g) (panel_events g)).

Definition panel_sleep (d : Q) : M Panel unit :=
  fun g => (inr tt, mkPanel (panel_stage g) (panel_slept g ++ [d])
                            (panel_events g)).

Definition emit (ev : gui_event) : M Panel unit :=
  fun g => (inr tt, mkPanel (panel_stage g) (panel_slept g)
                            (panel_events g ++ [ev])).

(** [try: m  except <class> as e: h(e)] *)
Definition try_except_as {S A} (m : M S A) (catches : exn -> bool)
    (h : exn -> M S A) : M S A :=
  fun s => match m s with
           | (inl e, s') => if catches e then h e s' else (inl e, s')
           | ok => ok
           end.

(** What [except Exception] catches: every Python exception. *)
Definition is_Exception (e : exn) : bool :=
  match e with Diverged => false | _ => true end.

(** What [except ValueError] catches. *)
Definition is_ValueError (e : exn) : bool :=
  match e with ValueError _ | BeyondLimits _ _ _ => true | _ => false end.

(** A [float] or [None] as an argument value. *)
Definition float_or_None (v : option Q) : Py.value :=
  match v with Some q => Py.PyFloat q | None => Py.PyNone end.

Module StageControl.

(** [step_map]; the labels are the entries of the step-size dropdowns. *)
Definition step_map : list (string * Z) :=
  [("1µm", 1); ("5µm", 5); ("10µm", 10); ("25µm", 25); ("50µm", 50);
   ("100µm", 100)].

(** [float(self.step_map[label])]; [None] stands for the [KeyError] of a
    label that is not in the map. *)
Fixpoint lookup (m : list (string * Z)) (label : string) : option Z :=
  match m with
  | [] => None
  | (k, v) :: rest => if String.eqb k label then Some v else lookup rest label
  end.

Definition step (label : string) : option Q :=
  option_map inject_Z (lookup step_map label).

(** The callback the panel is given as [move_stage_callback], called with
    [mode], [x], [y] and [z]. *)
Definition callback : Type :=
  string -> option Q -> option Q -> option Q -> M Panel unit.

(** The closure [move_xy(x, y)] of [StageControl.__init__]. *)
Definition move_xy (move_stage_callback : callback) (x y : option Q)
  : M Panel unit :=
  (match x with
   | Some _ => move_stage_callback "xy" x None None
   | None => ret tt
   end) ;;
  (match y with
   | Some _ => move_stage_callback "xy" None y None
   | None => ret tt
   end).

(** The closure [move_z(z)]. *)
Definition move_z (move_stage_callback : callback) (z : option Q)
  : M Panel unit :=
  move_stage_callback "z" None None z.

(** [float(s) if s else None] on a stripped entry. *)
Definition entry_value (s : string) : exn + option Q :=
  if String.eqb s "" then inr None
  else match Py.float s with
       | Some q => inr (Some q)
       | None => inl (ValueError "could not convert string to float")
       end.

(** [move_stage()], given the text of the three entries. *)
Definition move_stage (move_stage_callback : callback)
    (x_entry y_entry z_entry : string) : M Panel unit :=
  try_except_as
    (x <- lift (entry_value (Py.strip x_entry)) ;;
     y <- lift (entry_value (Py.strip y_entry)) ;;
     z <- lift (entry_value (Py.strip z_entry)) ;;
     move_stage_callback "coordinate" x y z)
    is_ValueError
    (fun _ => emit ShowInvalidInput).

End StageControl.

(** The arrow buttons: each gives the argument it passes on, from the label
    selected in its dropdown ([None] for a label missing from the map). *)
Module XYControl.

(** [move_left]: [move_xy(x=-round(10 * step, 3))] *)
Definition move_left (label : string) : option (option Q * option Q) :=
  option_map (fun step => (Some (- Py.round3 (10 * step))%Q, None))
             (StageControl.step label).

(** [move_right]: [move_xy(x=round(10 * step, 3))] *)
Definition move_right (label : string) : option (option Q * option Q) :=
  option_map (fun step => (Some (Py.round3 (10 * step)), None))
             (StageControl.step label).

(** [move_up]: [move_xy(y=round(10 * step, 3))] *)
Definition move_up (label : string) : option (option Q * option Q) :=
  option_map (fun step => (None, Some (Py.round3 (10 * step))))
             (StageControl.step label).

(** [move_down]: [move_xy(y=-round(10 * step, 3))] *)
Definition move_down (label : string) : option (option Q * option Q) :=
  option_map (fun step => (None, Some (- Py.round3 (10 * step))%Q))
             (StageControl.step label).

End XYControl.

Module ZControl.

(** [move_up]: [move_z(round(-10 * step, 3))] *)
Definition move_up (label : string) : option Q :=
  option_map (fun step => Py.round3 (-10 * step)) (StageControl.step label).

(** [move_down]: [move_z(round(10 * step, 3))] *)
Definition move_down (label : string) : option Q :=
  option_map (fun step => Py.round3 (10 * step)) (StageControl.step label).

End ZControl.

Module StageGUI.

(** [while not self.stage.status(): sleep(0.05)] *)
Fixpoint wait_for_idle (fuel : nat) : M Panel unit :=
  match fuel with
  | O => raise Diverged
  | S fuel' =>
      idle <- on_panel_stage MS2000.status ;;
      if negb idle
      then panel_sleep (5 # 100) ;; wait_for_idle fuel'
      else ret tt
  end.


(** [stage_move_handler(mode=..., x=..., y=..., z=...)] *)
Definition stage_move_handler (fuel : nat) : StageControl.callback :=
  fun mode x y z =>
    wait_for_idle fuel ;;
    try_except_as
      (if String.eqb mode "coordinate" then
         let x := option_map (fun v => v * 10000)%Q x in
         let y := option_map (fun v => v * 10000)%Q y in
         let z := option_map (fun v => v * 10000)%Q z in
         on_panel_stage (MS2000.move (float_or_None x) (float_or_None y)
                                     (float_or_None z) false)
       else if String.eqb mode "z" then
         on_panel_stage (MS2000.move Py.PyNone Py.PyNone (float_or_None z) true)
       else if String.eqb mode "xy" then
         on_panel_stage (MS2000.move (float_or_None x) (float_or_None y)
                                     Py.PyNone true)
       else ret tt)
      is_Exception
      (fun e => emit (ShowError "Stage Move Error" e) ;;
                emit (Printed "Error:" e)).

(** [stage_zero()] *)
Definition stage_zero : M Panel unit :=
  try_except_as (on_panel_stage MS2000.zero) is_Exception
    (fun e => emit (Printed "Failed to zero stage:" e)).

(** [stage_home()] *)
Definition stage_home (fuel : nat) : M Panel unit :=
  try_except_as
    (wait_for_idle fuel ;; on_panel_stage MS2000.home)
    is_Exception
    (fun e => emit (Printed "Failed to move stage home:" e)).

End StageGUI.


(** A resource that the probing loop can use: it opens and has a reply to
    give to the identity query. *)
Definition responds (r : MS2000.Resource) : bool :=
  match MS2000.res_open r with
  | Some device => match pending device with [] => false | _ :: _ => true end
  | None => false
  end.

(** A resource after the probing loop has asked it for its identity: when it
    opens, WHO has been transmitted on its link and the reply, if there was
    one, is used up; when it does not open, nothing has changed. *)
Definition asked (r : MS2000.Resource) : MS2000.Resource :=
  match MS2000.res_open r with
  | Some device =>
      MS2000.mkResource (MS2000.res_name r)
        (Some (mkSerial (sent device ++ ["WHO"]) (tl (pending device))))
  | None => r
  end.

(** The names of the resources that open, in the order listed. *)
Fixpoint opened_names (resources : list MS2000.Resource) : list string :=
  match resources with
  | [] => []
  | r :: rest =>
      match MS2000.res_open r with
      | Some _ => MS2000.res_name r :: opened_names rest
      | None => opened_names rest
      end
  end.

(** Two listed ports, the second an MS-2000. *)
Definition two_ports : list MS2000.Resource :=
  [MS2000.mkResource "COM1" None;
   MS2000.mkResource "COM3" (Some (mkSerial [] [":A ASI-MS2000 v9.2"]))].

(** The characters of a string. *)
Fixpoint chars (s : string) : list ascii :=
  match s with
  | EmptyString => []
  | String c rest => c :: chars rest
  end.



(** A coordinate entered in millimetres as the handler passes it to the
    driver and the driver formats it: times 10000, rounded to thousandths. *)
Definition to_native (v : option Q) : Py.value :=
  Py.round_3 (float_or_None (option_map (fun q => q * 10000)%Q v)).

(** The line of a step button: a relative move of [v] native units on the
    axis of that letter. *)
Definition button_line (letter : string) (v : Z) : string :=
  "MOVREL " ++ letter ++ "=" ++ Py.str (Py.PyFloat (inject_Z v)).

(** A panel whose controller will answer two status queries and one move. *)
Definition idle_panel (sent0 : list string) (r0 r1 r2 : string)
    (rest : list string) (naps : list Q) (events : list gui_event) : Panel :=
  mkPanel (mkSerial sent0 (r0 :: r1 :: r2 :: rest)) naps events.

(** The outcome of a button press on it: both status queries and the one
    line transmitted, nothing slept, nothing shown. *)
Definition pressed (sent0 rest : list string) (naps : list Q)
    (events : list gui_event) (line : string) : (exn + unit) * Panel :=
  (inr tt,
   mkPanel (mkSerial (sent0 ++ ["STATUS"; "STATUS"; line]) rest) naps events).

(** * Properties *)

(** ** The monad *)

Lemma bind_ok {S A B} (m : M S A) (k : A -> M S B) s a s' :
  m s = (inr a, s') -> bind m k s = k a s'.
Proof. intros E. unfold bind. rewrite E. reflexivity. Qed.

Lemma bind_err {S A B} (m : M S A) (k : A -> M S B) s e s' :
  m s = (inl e, s') -> bind m k s = (inl e, s').
Proof. intros E. unfold bind. rewrite E. reflexivity. Qed.

Lemma on_stage_run {D A} method (m : M D A) (w : World D) r d :
  m (_stage w) = (r, d) ->
  on_stage method m w
  = (r, mkWorld d (clock w) (slept w) (motors w)
                (journal w ++ [Called method])).
Proof. intros E. unfold on_stage. rewrite E. reflexivity. Qed.

(** ** Travel limits *)

Section LimitsGeneric.

Context {D : Type} `{Driver D}.

(** An out-of-range request is refused with the world as [position_limits]
    left it: the driver's [move] is not reached. *)
Lemma move_to_refused fuel self target blocking (w w1 : World D) lim :
  position_limits self w = (inr lim, w1) ->
  within_range lim target = false ->
  move_to fuel self target blocking w
  = (inl (BeyondLimits target (min lim) (max lim)), w1).
Proof.
  intros Hlim Hout. unfold move_to.
  rewrite (bind_ok _ _ _ _ _ Hlim), Hout. reflexivity.
Qed.

(** Limits configured at construction, or already cached, are answered
    without touching the driver. *)
Lemma position_limits_offline self (w w1 : World D) r :
  position_limits_cache (motors w self) <> None
  \/ _position_limits (motors w self) <> None ->
  position_limits self w = (r, w1) ->
  _stage w1 = _stage w.
Proof.
  intros Hcfg. unfold position_limits, get_motor, bind.
  destruct (position_limits_cache (motors w self)) as [c|].
  - intros E. inversion E. reflexivity.
  - destruct (_position_limits (motors w self)) as [c|].
    + cbn. intros E. inversion E. reflexivity.
    + destruct Hcfg as [C|C]; contradiction.
Qed.

End LimitsGeneric.

(** ** The facade over the real driver *)

Lemma query_sent cmd d r d' :
  query cmd d = (r, d') -> sent d' = (sent d ++ [cmd])%list.
Proof.
  unfold query. destruct (pending d); intros E; inversion E; reflexivity.
Qed.

Lemma limits_sent d r d' :
  MS2000.limits true true true d = (r, d') ->
  exists l, sent d' = (sent d ++ l)%list /\ Forall limit_query l.
Proof.
  unfold MS2000.limits, bind, lift. cbn.
  destruct (query "SETLOW X? Y? Z?" d) as [[e|low] d1] eqn:Q1.
  - intros E. inversion E. subst. apply query_sent in Q1.
    exists ["SETLOW X? Y? Z?"]. split; [assumption|].
    constructor; [left; reflexivity | constructor].
  - apply query_sent in Q1.
    destruct (MS2000.floats 2 (tl (Py.split low))) as [e|lo].
    + intros E. inversion E. subst.
      exists ["SETLOW X? Y? Z?"]. split; [assumption|].
      constructor; [left; reflexivity | constructor].
    + destruct (query "SETUP X? Y? Z?" d1) as [[e|high] d2] eqn:Q2;
        apply query_sent in Q2;
        assert (S2 : sent d2
                     = (sent d ++ ["SETLOW X? Y? Z?"; "SETUP X? Y? Z?"])%list)
          by (rewrite Q2, Q1, <- app_assoc; reflexivity);
        assert (F2 : Forall limit_query ["SETLOW X? Y? Z?"; "SETUP X? Y? Z?"])
          by (constructor; [left; reflexivity |];
              constructor; [right; reflexivity | constructor]).
      * intros E. inversion E. subst. eauto.
      * destruct (MS2000.floats 2 (tl (Py.split high)));
          intros E; inversion E; subst; eauto.
Qed.

Section RealDriver.

Variable depth : nat.
Let real : Driver Serial := MS2000_Driver depth.
#[local] Existing Instance real.

Lemma position_limits_sent self (w w1 : World Serial) r :
  position_limits self w = (r, w1) ->
  exists l, sent (_stage w1) = (sent (_stage w) ++ l)%list
            /\ Forall limit_query l.
Proof.
  unfold position_limits, get_motor, bind.
  destruct (position_limits_cache (motors w self)) as [c|].
  - intros E. inversion E. exists []. rewrite app_nil_r. auto.
  - destruct (_position_limits (motors w self)) as [c|].
    + cbn. intros E. inversion E. exists []. rewrite app_nil_r. auto.
    + unfold on_stage. cbn -[MS2000.limits].
      destruct (MS2000.limits true true true (_stage w)) as [[e|lims] d1] eqn:L;
        apply limits_sent in L.
      * intros E. inversion E. cbn. assumption.
      * unfold index.
        destruct (nth_error lims (axis_idx self)) as [lu|]; cbn.
        -- unfold lift.
           destruct (PositionRange_new (fst lu / ten_e6) (snd lu / ten_e6));
             intros E; inversion E; cbn; assumption.
        -- intros E. inversion E. cbn. assumption.
Qed.

(** C7: a target outside [position_limits] makes [move_to] raise the
    [ValueError] that reports the target with the [min] and [max] in force,
    and the driver's [move] is never reached: the only lines that may have
    been transmitted are the two limit queries of a first, uncached read of
    the limits, and none at all when the limits are configured or cached. *)
Theorem move_to_beyond_limits_sends_no_move
    fuel self target blocking (w w1 : World Serial) lim :
  position_limits self w = (inr lim, w1) ->
  within_range lim target = false ->
  move_to fuel self target blocking w
    = (inl (BeyondLimits target (min lim) (max lim)), w1)
  /\ (exists l, sent (_stage w1) = (sent (_stage w) ++ l)%list
                /\ Forall limit_query l)
  /\ (position_limits_cache (motors w self) <> None
      \/ _position_limits (motors w self) <> None ->
      _stage w1 = _stage w).
Proof.
  intros Hlim Hout. split; [|split].
  - apply move_to_refused; assumption.
  - eapply position_limits_sent; eassumption.
  - intros Hcfg. eapply position_limits_offline; eassumption.
Qed.

End RealDriver.

Lemma move_to_beyond_limits_witness :
  @move_to _ (MS2000_Driver 100) 700 x_axis 10 true limits_scenario
    = (inl (BeyondLimits 10 (-5) 5),
       snd (@position_limits _ (MS2000_Driver 100) x_axis limits_scenario))
  /\ (exists l,
        sent (_stage (snd (@position_limits _ (MS2000_Driver 100) x_axis
                             limits_scenario)))
        = (sent (_stage limits_scenario) ++ l)%list
        /\ Forall limit_query l)
  /\ (position_limits_cache (motors limits_scenario x_axis) <> None
      \/ _position_limits (motors limits_scenario x_axis) <> None ->
      _stage (snd (@position_limits _ (MS2000_Driver 100) x_axis limits_scenario))
      = _stage limits_scenario).
Proof.
  apply (move_to_beyond_limits_sends_no_move 100 700 x_axis 10 true
           limits_scenario _ (mkRange (-5) 5)); reflexivity.
Defined.

(** ** Single-axis moves through the real driver *)

Section RealMoves.

Variable depth : nat.
Let real : Driver Serial := MS2000_Driver depth.
#[local] Existing Instance real.

(** With the controller idle, a single-axis move costs one status query and
    then transmits the move line. *)
Lemma stage_move_idle self v relative (w : World Serial) sent0 r1 r2 rest :
  _stage w = mkSerial sent0 (r1 :: r2 :: rest) ->
  Py.is_numeric v = true ->
  busy_reply r1 = false ->
  stage_move self v relative w
  = (inr tt,
     mkWorld (mkSerial (sent0 ++ ["STATUS"; move_line relative self v]) rest)
             (clock w) (slept w) (motors w) (journal w ++ [Called "move"])).
Proof.
  intros Hs Hnum Hidle. unfold busy_reply in Hidle.
  unfold stage_move, move_line.
  destruct self; cbn -[Py.str Py.round_3 Py.contains Py.strip];
    unfold on_stage; rewrite Hs;
    destruct v; try discriminate Hnum;
    destruct relative;
    cbn -[Py.str Py.round_3 Py.contains Py.strip];
    unfold bind, MS2000.status, bind, query, ret;
    cbn -[Py.str Py.round_3 Py.contains Py.strip];
    rewrite Hidle; cbn -[Py.str Py.round_3 Py.contains Py.strip];
    rewrite <- app_assoc; reflexivity.
Qed.

(** With the controller busy, the move is rejected after the status query
    and nothing else is transmitted. *)
Lemma stage_move_busy self v relative (w : World Serial) sent0 r1 rest :
  _stage w = mkSerial sent0 (r1 :: rest) ->
  Py.is_numeric v = true ->
  busy_reply r1 = true ->
  stage_move self v relative w
  = (inl (RuntimeError "Device is busy moving!"),
     mkWorld (mkSerial (sent0 ++ ["STATUS"]) rest)
             (clock w) (slept w) (motors w) (journal w ++ [Called "move"])).
Proof.
  intros Hs Hnum Hbusy. unfold busy_reply in Hbusy.
  unfold stage_move.
  destruct self; cbn -[Py.str Py.round_3 Py.contains Py.strip];
    unfold on_stage; rewrite Hs;
    destruct v; try discriminate Hnum;
    destruct relative;
    cbn -[Py.str Py.round_3 Py.contains Py.strip];
    unfold bind, MS2000.status, bind, query, ret;
    cbn -[Py.str Py.round_3 Py.contains Py.strip];
    rewrite Hbusy; reflexivity.
Qed.

(** C10: [move_velocity] accepts a velocity of exactly zero and jogs in the
    negative direction.  For every velocity that is not strictly positive
    the relative move is by -10000000 native units, otherwise by +10000000;
    with the controller idle the line is transmitted and the call returns. *)
Theorem move_velocity_direction self v (w : World Serial) sent0 r1 r2 rest :
  _stage w = mkSerial sent0 (r1 :: r2 :: rest) ->
  busy_reply r1 = false ->
  ((v <= 0)%Q ->
   move_velocity self (Velocity v) w
   = (inr tt, after_move w sent0 rest
                ("MOVREL " ++ axis_letter self ++ "=-10000000")))
  /\ ((0 < v)%Q ->
      move_velocity self (Velocity v) w
      = (inr tt, after_move w sent0 rest
                   ("MOVREL " ++ axis_letter self ++ "=10000000"))).
Proof.
  intros Hs Hidle. unfold move_velocity, Py.gt. split; intros Hv.
  - apply Qle_bool_iff in Hv. rewrite Hv. cbn [negb].
    erewrite stage_move_idle; [| eassumption | reflexivity | assumption].
    destruct self; reflexivity.
  - assert (Hn : Qle_bool v 0 = false).
    { destruct (Qle_bool v 0) eqn:E; [|reflexivity].
      apply Qle_bool_iff in E. exfalso. exact (Qlt_not_le _ _ Hv E). }
    rewrite Hn. cbn [negb].
    erewrite stage_move_idle; [| eassumption | reflexivity | assumption].
    destruct self; reflexivity.
Qed.

End RealMoves.

Lemma move_velocity_zero_witness :
  @move_velocity _ (MS2000_Driver 100) y_axis (Velocity 0) idle_scenario
  = (inr tt, after_move idle_scenario [] [] "MOVREL Y=-10000000").
Proof.
  apply (move_velocity_direction 100 y_axis 0 idle_scenario [] "N" ":A" []);
    [reflexivity | reflexivity | unfold Qle; simpl; lia].
Defined.

(** ** Stopping *)

Section StopGeneric.

Context {D : Type} `{Driver D}.

(** A first attempt that is accepted ends [stop]. *)
Lemma stop_first_ok self (w w1 w2 : World D) t p :
  on_stage "position" (drv_position true true true) w = (inr t, w1) ->
  nth_error t (axis_idx self) = Some p ->
  stage_move self (Py.PyFloat p) false w1 = (inr tt, w2) ->
  stop self w = (inr tt, w2).
Proof.
  intros Hpos Hnth Hmove. unfold stop.
  rewrite (bind_ok _ _ _ _ _ Hpos). unfold index. rewrite Hnth.
  unfold bind at 1, ret at 1. unfold try_except. rewrite Hmove. reflexivity.
Qed.

(** A first attempt refused with a [RuntimeError] is followed by one sleep,
    one fresh position read and one more move, whose outcome is the outcome
    of [stop]. *)
Lemma stop_retry self (w w1 w2 w3 w4 : World D) t p e t' p' r :
  on_stage "position" (drv_position true true true) w = (inr t, w1) ->
  nth_error t (axis_idx self) = Some p ->
  stage_move self (Py.PyFloat p) false w1 = (inl e, w2) ->
  is_RuntimeError e = true ->
  on_stage "position" (drv_position true true true) (snd (sleep (1 / 10) w2))
    = (inr t', w3) ->
  nth_error t' (axis_idx self) = Some p' ->
  stage_move self (Py.PyFloat p') false w3 = (r, w4) ->
  stop self w = (r, w4).
Proof.
  intros Hpos Hnth Hmove He Hpos' Hnth' Hmove'. unfold stop.
  rewrite (bind_ok _ _ _ _ _ Hpos). unfold index. rewrite Hnth.
  unfold bind at 1, ret at 1. unfold try_except. rewrite Hmove, He.
  unfold bind at 1. cbn [sleep]. cbn [sleep snd] in Hpos'.
  rewrite (bind_ok _ _ _ _ _ Hpos'). rewrite Hnth'.
  unfold bind at 1, ret at 1. exact Hmove'.
Qed.

End StopGeneric.

(** A reply with three coordinates answers a query of all three axes at the
    first exchange. *)
Lemma position_first_try depth sent0 reply rest t :
  coords_of reply = inr t ->
  length t = 3%nat ->
  MS2000.position (S depth) true true true (mkSerial sent0 (reply :: rest))
  = (inr t, mkSerial (sent0 ++ ["WHERE X Y Z"]) rest).
Proof.
  unfold coords_of. intros Hc Hl.
  cbn -[MS2000.floats Py.split Nat.eqb].
  unfold bind, query, lift. cbn -[MS2000.floats Py.split Nat.eqb].
  rewrite Hc, Hl. reflexivity.
Qed.

Section RealStop.

Variable depth : nat.
Let real : Driver Serial := MS2000_Driver (S depth).
#[local] Existing Instance real.

Lemma where_all (w : World Serial) sent0 reply rest t :
  _stage w = mkSerial sent0 (reply :: rest) ->
  coords_of reply = inr t ->
  length t = 3%nat ->
  on_stage "position" (drv_position true true true) w
  = (inr t, mkWorld (mkSerial (sent0 ++ ["WHERE X Y Z"]) rest)
                    (clock w) (slept w) (motors w)
                    (journal w ++ [Called "position"])).
Proof.
  intros Hs Hc Hl. apply on_stage_run. rewrite Hs.
  apply position_first_try; assumption.
Qed.

(** C8: [stop] re-issues an absolute move to the position it has just read.
    Accepted at once, nothing more happens (no sleep, no second read).
    Refused as busy, [stop] first sleeps 0.1 s, then reads the position
    afresh, then tries the move once more with the fresh value: accepted,
    [stop] returns; refused again, the busy error reaches the caller and no
    third attempt is made.  The journal gives the order of the driver calls
    and the sleep, the link's log the lines they transmitted. *)
Theorem stop_retries_exactly_once
    self (w : World Serial) sent0 rpos t p :
  coords_of rpos = inr t ->
  length t = 3%nat ->
  nth_error t (axis_idx self) = Some p ->
  (forall r1 r2 rest,
      _stage w = mkSerial sent0 (rpos :: r1 :: r2 :: rest) ->
      busy_reply r1 = false ->
      stop self w
      = (inr tt,
         advanced w sent0
           ["WHERE X Y Z"; "STATUS"; move_line false self (Py.PyFloat p)]
           rest [] (clock w)
           [Called "position"; Called "move"]))
  /\ (forall r1 rpos' t' p' r2 r3 rest,
        _stage w = mkSerial sent0 (rpos :: r1 :: rpos' :: r2 :: r3 :: rest) ->
        busy_reply r1 = true ->
        coords_of rpos' = inr t' ->
        length t' = 3%nat ->
        nth_error t' (axis_idx self) = Some p' ->
        busy_reply r2 = false ->
        stop self w
        = (inr tt,
           advanced w sent0
             ["WHERE X Y Z"; "STATUS"; "WHERE X Y Z"; "STATUS";
              move_line false self (Py.PyFloat p')]
             rest [(1 / 10)%Q] (Qred (clock w + 1 / 10))
             [Called "position"; Called "move"; Slept (1 / 10);
              Called "position"; Called "move"]))
  /\ (forall r1 rpos' t' p' r2 rest,
        _stage w = mkSerial sent0 (rpos :: r1 :: rpos' :: r2 :: rest) ->
        busy_reply r1 = true ->
        coords_of rpos' = inr t' ->
        length t' = 3%nat ->
        nth_error t' (axis_idx self) = Some p' ->
        busy_reply r2 = true ->
        stop self w
        = (inl (RuntimeError "Device is busy moving!"),
           advanced w sent0
             ["WHERE X Y Z"; "STATUS"; "WHERE X Y Z"; "STATUS"]
             rest [(1 / 10)%Q] (Qred (clock w + 1 / 10))
             [Called "position"; Called "move"; Slept (1 / 10);
              Called "position"; Called "move"])).
Proof.
  intros Hc Hl Hnth. split; [|split].
  - intros r1 r2 rest Hs Hidle.
    eapply stop_first_ok.
    + eapply where_all; eassumption.
    + eassumption.
    + unfold real. erewrite stage_move_idle; [| reflexivity | reflexivity | eassumption].
      unfold advanced. cbn. rewrite <- !app_assoc, app_nil_r. reflexivity.
  - intros r1 rpos' t' p' r2 r3 rest Hs Hbusy Hc' Hl' Hnth' Hidle.
    eapply stop_retry.
    + eapply where_all; eassumption.
    + eassumption.
    + unfold real. eapply stage_move_busy; [reflexivity | reflexivity | eassumption].
    + reflexivity.
    + eapply where_all; [reflexivity | eassumption | assumption].
    + eassumption.
    + unfold real. erewrite stage_move_idle; [| reflexivity | reflexivity | eassumption].
      unfold advanced. cbn. rewrite <- !app_assoc. reflexivity.
  - intros r1 rpos' t' p' r2 rest Hs Hbusy Hc' Hl' Hnth' Hbusy'.
    eapply stop_retry.
    + eapply where_all; eassumption.
    + eassumption.
    + unfold real. eapply stage_move_busy; [reflexivity | reflexivity | eassumption].
    + reflexivity.
    + eapply where_all; [reflexivity | eassumption | assumption].
    + eassumption.
    + unfold real. erewrite stage_move_busy; [| reflexivity | reflexivity | eassumption].
      unfold advanced. cbn. rewrite <- !app_assoc. reflexivity.
Qed.

End RealStop.

Lemma stop_retries_witness :
  @stop _ (MS2000_Driver 100) z_axis stop_scenario
  = (inr tt,
     advanced stop_scenario []
       ["WHERE X Y Z"; "STATUS"; "WHERE X Y Z"; "STATUS"; "MOVE Z=4.5"]
       [] [(1 / 10)%Q] (1 # 10)
       [Called "position"; Called "move"; Slept (1 / 10);
        Called "position"; Called "move"]).
Proof.
  destruct (stop_retries_exactly_once 99 z_axis stop_scenario []
              ":A 1 2 3.5" [1; 2; 35 # 10]%Q (35 # 10)
              eq_refl eq_refl eq_refl) as [_ [Retry _]].
  apply (Retry "B" ":A 1 2 4.5" [1; 2; 45 # 10]%Q (45 # 10) "N" ":A" []);
    reflexivity.
Defined.

(** ** Start-up homing *)

Section Startup.

Context {D : Type} `{Driver D}.

(** An axis that does not read as homed is sent home, and what the driver's
    [home] raises is raised. *)
Lemma home_if_not_homed_raises fuel self (w w1 w2 : World D) e :
  homed self w = (inr false, w1) ->
  on_stage "home" drv_home w1 = (inl e, w2) ->
  home_if_not_homed fuel self w = (inl e, w2).
Proof.
  intros Hh Hhome. unfold home_if_not_homed.
  rewrite (bind_ok _ _ _ _ _ Hh). cbn [negb]. unfold home.
  apply bind_err. assumption.
Qed.

(** C6, as the code has it: [MS2000Stage.__init__] has no handler around the
    start-up homing.  Once the three axis objects are built, the first error
    raised while homing an axis that does not read as homed ends
    construction with that error. *)
Theorem startup_homing_errors_propagate
    fuel x_config y_config z_config (w w0 : World D) e :
  (ASILinearMotor_init x_axis x_config ;;
   ASILinearMotor_init y_axis y_config ;;
   ASILinearMotor_init z_axis z_config)%py w = (inr tt, w0) ->
  (forall w1 w2,
      homed x_axis w0 = (inr false, w1) ->
      on_stage "home" drv_home w1 = (inl e, w2) ->
      MS2000Stage_init fuel x_config y_config z_config w = (inl e, w2))
  /\ (forall wx w1 w2,
        home_if_not_homed fuel x_axis w0 = (inr tt, wx) ->
        homed y_axis wx = (inr false, w1) ->
        on_stage "home" drv_home w1 = (inl e, w2) ->
        MS2000Stage_init fuel x_config y_config z_config w = (inl e, w2))
  /\ (forall wx wy w1 w2,
        home_if_not_homed fuel x_axis w0 = (inr tt, wx) ->
        home_if_not_homed fuel y_axis wx = (inr tt, wy) ->
        homed z_axis wy = (inr false, w1) ->
        on_stage "home" drv_home w1 = (inl e, w2) ->
        MS2000Stage_init fuel x_config y_config z_config w = (inl e, w2)).
Proof.
  intros Hbuild.
  assert (Hinit : forall k : M (World D) unit,
             (ASILinearMotor_init x_axis x_config ;;
              ASILinearMotor_init y_axis y_config ;;
              ASILinearMotor_init z_axis z_config ;; k)%py w = k w0).
  { intros k. revert Hbuild. unfold bind.
    destruct (ASILinearMotor_init x_axis x_config w) as [[ex|[]] wa];
      [discriminate|].
    destruct (ASILinearMotor_init y_axis y_config wa) as [[ey|[]] wb];
      [discriminate|].
    destruct (ASILinearMotor_init z_axis z_config wb) as [[ez|[]] wc];
      [discriminate|].
    intros E. inversion E. reflexivity. }
  unfold MS2000Stage_init. rewrite Hinit. split; [|split].
  - intros w1 w2 Hh Hhome. apply bind_err.
    eapply home_if_not_homed_raises; eassumption.
  - intros wx w1 w2 Hx Hh Hhome. rewrite (bind_ok _ _ _ _ _ Hx).
    apply bind_err. eapply home_if_not_homed_raises; eassumption.
  - intros wx wy w1 w2 Hx Hy Hh Hhome.
    rewrite (bind_ok _ _ _ _ _ Hx), (bind_ok _ _ _ _ _ Hy).
    eapply home_if_not_homed_raises; eassumption.
Qed.

End Startup.

(** Against C6 as stated: with the controller busy at start-up and the x
    axis away from the origin, construction does not complete; the busy
    error of the home move comes out of it. *)
Lemma startup_homing_busy_aborts_construction :
  fst (@MS2000Stage_init _ (MS2000_Driver 100) 700 None None None busy_startup)
  = inl (RuntimeError "Device is busy moving!").
Proof. vm_compute. reflexivity. Qed.

Lemma startup_homing_witness :
  @MS2000Stage_init _ (MS2000_Driver 100) 700 None None None busy_startup
  = (inl (RuntimeError "Device is busy moving!"), busy_startup_end).
Proof.
  apply (proj1 (@startup_homing_errors_propagate _ (MS2000_Driver 100)
                  700 None None None busy_startup busy_startup_built
                  (RuntimeError "Device is busy moving!") eq_refl)
           busy_startup_read busy_startup_end); reflexivity.
Defined.

(** ** Connection by probing *)

(** The probing loop takes the first resource that opens and answers the
    identity query, whatever the answer is, and goes no further. *)
Lemma probe_takes_first_responder name sent0 idn rest others idn0 :
  MS2000.probe
    (MS2000.mkResource name (Some (mkSerial sent0 (idn :: rest))) :: others)
    idn0
  = MS2000.mkProbed
      (MS2000.mkResource name (Some (mkSerial (sent0 ++ ["WHO"]) rest))
         :: others)
      [name] (Some idn)
      (Some (name, idn, mkSerial (sent0 ++ ["WHO"]) rest)).
Proof. reflexivity. Qed.

(** When the loop selects nothing, [idn] was never bound: the
    "Instrument not found" message cannot be built. *)
Lemma probe_nothing_found_unbound resources :
  (exists selected, MS2000.found (MS2000.probe resources None) = Some selected)
  \/ (MS2000.found (MS2000.probe resources None) = None
      /\ MS2000.idn_local (MS2000.probe resources None) = None).
Proof.
  induction resources as [|r rs IH]; cbn.
  - right. split; reflexivity.
  - destruct (MS2000.res_open r) as [dev|]; [|exact IH].
    unfold query. destruct (pending dev) as [|reply more]; [exact IH|].
    left. cbn. eauto.
Qed.

(** C2, at the failing input: a port whose identity reply does not contain
    "ASI-MS2000" is selected by the probe, and construction succeeds: the
    object has the port's link as its [stage], the one session opened is
    that port's, and the line printed names it. *)
Theorem probe_selects_foreign_device :
  Py.contains "ASI-MS2000" "HELLO" = false
  /\ MS2000.init None (MS2000.mkManager foreign_port [] [])
     = (inr (MS2000.mkMS2000 (mkSerial ["WHO"] [])),
        MS2000.mkManager
          [MS2000.mkResource "ASRL1::INSTR" (Some (mkSerial ["WHO"] []))]
          ["ASRL1::INSTR"]
          ["Found HELLO at: ASRL1::INSTR"]).
Proof. split; reflexivity. Qed.

(** The explicit-name path of the same constructor does check the reply. *)
Lemma explicit_name_checks_identity :
  MS2000.init (Some "ASRL1::INSTR") (MS2000.mkManager foreign_port [] [])
  = (inl (ValueError "Not an ASI MS2000 stage controller."),
     MS2000.mkManager
       [MS2000.mkResource "ASRL1::INSTR" (Some (mkSerial ["WHO"] []))]
       ["ASRL1::INSTR"] []).
Proof. reflexivity. Qed.

(** With nothing to select, construction fails, but never with the
    "Instrument not found" [RuntimeError]. *)
Lemma probe_failure_is_unbound_local rm :
  (exists self, fst (MS2000.init None rm) = inr self)
  \/ fst (MS2000.init None rm) = inl (UnboundLocalError "idn").
Proof.
  unfold MS2000.init.
  destruct (probe_nothing_found_unbound (MS2000.listed rm))
    as [[[[name idn] device] E]|[E1 E2]].
  - rewrite E. left. eexists. reflexivity.
  - rewrite E1, E2. right. reflexivity.
Qed.

(** ** Setting limits *)

(** C5, at the failing inputs: a bound of zero is not [None], yet alone (or
    paired with another zero) it is rejected as if no bound were given, and
    nothing is transmitted. *)
Theorem setLimit_rejects_zero_bound (d : Serial) :
  MS2000.setLimit "X" (Py.PyInt 0) Py.PyNone d
  = (inl (ValueError "Must specify at least an upper or lower limit"), d)
  /\ MS2000.setLimit "X" Py.PyNone (Py.PyFloat 0) d
     = (inl (ValueError "Must specify at least an upper or lower limit"), d)
  /\ MS2000.setLimit "X" (Py.PyInt 0) (Py.PyInt 0) d
     = (inl (ValueError "Must specify at least an upper or lower limit"), d).
Proof. repeat split; reflexivity. Qed.

(** The guard is a truth-value test: any two bounds that are [None] or zero
    are refused, whatever the link holds. *)
Lemma setLimit_refuses_falsy_bounds lower upper (d : Serial) :
  Py.truthy lower = false ->
  Py.truthy upper = false ->
  MS2000.setLimit "X" lower upper d
  = (inl (ValueError "Must specify at least an upper or lower limit"), d).
Proof.
  intros Hl Hu. unfold MS2000.setLimit, Py.or_. cbn [existsb String.eqb].
  cbn -[Py.truthy]. rewrite Hl, Hu. reflexivity.
Qed.

(** A zero bound next to a non-zero one is transmitted like any other. *)
Lemma setLimit_zero_with_other_bound :
  MS2000.setLimit "X" (Py.PyInt 0) (Py.PyFloat (5 # 2)) (mkSerial [] [":A"; ":A"])
  = (inr tt, mkSerial ["SETLOW X=0"; "SETUP X=2.5"] []).
Proof. reflexivity. Qed.

(** ** Position queries *)

(** A reply whose coordinate count differs from the number of requested
    axes sends [position] into its recursive call, which asks for all three
    axes whatever was requested. *)
Lemma position_mismatch depth ax ay az sent0 reply rest cs :
  (ax || ay || az) = true ->
  coords_of reply = inr cs ->
  length cs <> (Nat.b2n ax + Nat.b2n ay + Nat.b2n az)%nat ->
  MS2000.position (S depth) ax ay az (mkSerial sent0 (reply :: rest))
  = MS2000.position depth true true true
      (mkSerial (sent0 ++ ["WHERE" ++ MS2000.axes_suffix " X" " Y" " Z" ax ay az])
                rest).
Proof.
  unfold coords_of. intros Hany Hc Hl.
  apply Nat.eqb_neq in Hl.
  cbn -[MS2000.floats Py.split Nat.eqb MS2000.axes_suffix append].
  rewrite Hany. cbn [negb].
  unfold bind at 1. unfold query at 1.
  cbn -[MS2000.floats Py.split Nat.eqb MS2000.axes_suffix append MS2000.position].
  rewrite Hc, Hl. reflexivity.
Qed.

(** C3, as the code has it, for a query of all three axes: every reply with
    a wrong coordinate count is followed by another query of the same three
    axes, as many times as wrong counts arrive; the first reply with three
    coordinates is returned.  The re-queries are nested calls: a run of
    wrong counts as long as the stack is deep ends in [RecursionError]. *)
Theorem position_requeries_until_count_matches
    depth (bad : list string) good coords rest sent0 :
  Forall wrong_count bad ->
  coords_of good = inr coords ->
  length coords = 3%nat ->
  ((length bad < depth)%nat ->
   MS2000.position depth true true true (mkSerial sent0 (bad ++ good :: rest))
   = (inr coords,
      mkSerial (sent0 ++ repeat "WHERE X Y Z" (S (length bad))) rest))
  /\ ((depth <= length bad)%nat ->
      MS2000.position depth true true true
        (mkSerial sent0 (bad ++ good :: rest))
      = (inl RecursionError,
         mkSerial (sent0 ++ repeat "WHERE X Y Z" depth)
                  (skipn depth (bad ++ good :: rest)))).
Proof.
  intros Hbad Hgood Hlen. revert depth sent0.
  induction Hbad as [|reply bad [cs [Hc Hl]] Hbad IH]; intros depth sent0.
  - split; intros Hd.
    + destruct depth as [|depth]; [inversion Hd|].
      cbn [app length repeat]. apply position_first_try; assumption.
    + assert (depth = 0%nat) by (cbn in Hd; lia). subst depth.
      cbn. rewrite app_nil_r. reflexivity.
  - destruct depth as [|depth].
    + split; intros Hd; [inversion Hd|].
      cbn. rewrite app_nil_r. reflexivity.
    + cbn [app length].
      rewrite (position_mismatch depth true true true sent0 reply
                 (bad ++ good :: rest) cs eq_refl Hc Hl).
      destruct (IH depth (sent0 ++ ["WHERE X Y Z"])%list) as [IHok IHdeep].
      split; intros Hd.
      * change ("WHERE" ++ MS2000.axes_suffix " X" " Y" " Z" true true true)
          with "WHERE X Y Z".
        rewrite IHok by lia. rewrite <- app_assoc. reflexivity.
      * change ("WHERE" ++ MS2000.axes_suffix " X" " Y" " Z" true true true)
          with "WHERE X Y Z".
        rewrite IHdeep by lia. rewrite <- app_assoc. reflexivity.
Qed.

(** Against C3 as stated: two wrong counts in a row are followed by two
    re-queries, not one; and a wrong count on a single-axis request is
    followed by a query of all three axes, whose three values are what the
    caller of the single-axis request receives. *)
Lemma position_requeries_twice_and_widens :
  MS2000.position 100 true true true
    (mkSerial [] [":A 1 2"; ":A 1 2"; ":A 1 2 3"])
  = (inr [1; 2; 3]%Q,
     mkSerial ["WHERE X Y Z"; "WHERE X Y Z"; "WHERE X Y Z"] [])
  /\ MS2000.position 100 true false false
       (mkSerial [] [":A 1 2"; ":A 1 2 3"])
     = (inr [1; 2; 3]%Q, mkSerial ["WHERE X"; "WHERE X Y Z"] []).
Proof. split; vm_compute; reflexivity. Qed.

Lemma position_requeries_witness :
  MS2000.position 100 true true true
    (mkSerial [] ([":A 1 2"; ":A 1 2 3 4"] ++ ":A 1 2 3" :: [":A 9 9 9"]))
  = (inr [1; 2; 3]%Q, mkSerial ([] ++ repeat "WHERE X Y Z" 3) [":A 9 9 9"]).
Proof.
  apply (position_requeries_until_count_matches 100
           [":A 1 2"; ":A 1 2 3 4"] ":A 1 2 3" [1; 2; 3]%Q [":A 9 9 9"] []).
  - repeat constructor.
    + exists [1; 2]%Q. split; [reflexivity | discriminate].
    + exists [1; 2; 3; 4]%Q. split; [reflexivity | discriminate].
  - reflexivity.
  - reflexivity.
  - cbn. lia.
Defined.

(** ** Rounding and formatting of transmitted values *)

Lemma append_nil_r (s : string) : s ++ "" = s.
Proof. induction s as [|c s IH]; cbn; [|rewrite IH]; reflexivity. Qed.

Lemma append_assoc (a b c : string) : (a ++ b) ++ c = a ++ b ++ c.
Proof. induction a as [|ch a IH]; cbn; [|rewrite IH]; reflexivity. Qed.

Lemma move_fields_text args : forall instruction,
  forallb (fun av => numeric_or_None (snd av)) args = true ->
  MS2000.move_fields instruction args
  = inr (instruction
           ++ fields (map (fun av => (fst av, Py.round_3 (snd av))) args)).
Proof.
  induction args as [|[a v] args IH]; intros instruction Hok.
  - cbn. rewrite append_nil_r. reflexivity.
  - cbn [forallb snd] in Hok. apply andb_true_iff in Hok as [Hv Hok].
    cbn [MS2000.move_fields map fields fst snd]. unfold field.
    destruct v; try discriminate Hv; cbn [Py.is_not_None Py.is_numeric negb Py.round_3];
      rewrite (IH _ Hok); rewrite ?append_assoc; reflexivity.
Qed.

Lemma speed_fields_text args : forall instruction,
  forallb (fun av => numeric_or_None (snd av)) args = true ->
  MS2000.speed_fields instruction args = inr (instruction ++ fields args).
Proof.
  induction args as [|[a v] args IH]; intros instruction Hok.
  - cbn. rewrite append_nil_r. reflexivity.
  - cbn [forallb snd] in Hok. apply andb_true_iff in Hok as [Hv Hok].
    cbn [MS2000.speed_fields fields]. unfold field.
    destruct v; try discriminate Hv; cbn [Py.is_not_None Py.is_numeric negb];
      rewrite (IH _ Hok); rewrite ?append_assoc; reflexivity.
Qed.

(** [round_half_even] is the same on equal rationals. *)
Lemma round_half_even_comp (p q : Q) :
  (p == q)%Q -> Py.round_half_even p = Py.round_half_even q.
Proof.
  intros E. unfold Py.round_half_even.
  rewrite (Qfloor_comp _ _ E).
  assert (E' : (p - inject_Z (Qfloor q) == q - inject_Z (Qfloor q))%Q)
    by (rewrite E; reflexivity).
  rewrite (Qcompare_comp _ _ E' _ _ (Qeq_refl (1 # 2))). reflexivity.
Qed.

(** The nearest integer is within one half. *)
Lemma round_half_even_close (r : Q) :
  (Qabs (inject_Z (Py.round_half_even r) - r) <= 1 # 2)%Q.
Proof.
  apply Qabs_Qle_condition. unfold Py.round_half_even.
  pose proof (Qfloor_le r) as Hlo. pose proof (Qlt_floor r) as Hhi.
  rewrite inject_Z_plus in Hhi.
  change (inject_Z 1) with 1%Q in Hhi.
  destruct (Qcompare (r - inject_Z (Qfloor r)) (1 # 2)) eqn:C.
  - apply Qeq_alt in C.
    destruct (Z.even (Qfloor r)); [|rewrite inject_Z_plus];
      change (inject_Z 1) with 1%Q;
      set (f := inject_Z (Qfloor r)) in *; split; lra.
  - apply Qlt_alt in C. set (f := inject_Z (Qfloor r)) in *. split; lra.
  - apply Qgt_alt in C. rewrite inject_Z_plus.
    change (inject_Z 1) with 1%Q.
    set (f := inject_Z (Qfloor r)) in *. split; lra.
Qed.

(** [round(q, 3)] is a whole number of thousandths, at most half a
    thousandth away from [q]. *)
Lemma round3_spec (q : Q) :
  exists k : Z, (Py.round3 q == k # 1000)%Q
                /\ (Qabs (Py.round3 q - q) <= 1 # 2000)%Q.
Proof.
  exists (Py.round_half_even (q * 1000)). unfold Py.round3.
  pose proof (round_half_even_close (q * 1000)) as Hc.
  apply Qabs_Qle_condition in Hc.
  assert (E : (Qred (inject_Z (Py.round_half_even (q * 1000)) / 1000)
               == inject_Z (Py.round_half_even (q * 1000)) * (1 # 1000))%Q).
  { rewrite Qred_correct. reflexivity. }
  split.
  - rewrite E. unfold Qeq, inject_Z. cbn. lia.
  - apply Qabs_Qle_condition. rewrite E. split; lra.
Qed.

Lemma round_half_even_Z (k : Z) : Py.round_half_even (inject_Z k) = k.
Proof.
  unfold Py.round_half_even. rewrite Qfloor_Z.
  assert (E : (inject_Z k - inject_Z k == 0)%Q) by ring.
  rewrite (Qcompare_comp _ _ E _ _ (Qeq_refl (1 # 2))). reflexivity.
Qed.

(** Rounding what is already rounded changes nothing: the facade's
    [round(..., 3)] followed by the driver's is one rounding. *)
Lemma round3_idempotent (q : Q) : Py.round3 (Py.round3 q) = Py.round3 q.
Proof.
  unfold Py.round3 at 1.
  assert (E : (Py.round3 q * 1000
               == inject_Z (Py.round_half_even (q * 1000)))%Q).
  { unfold Py.round3. rewrite Qred_correct. field. }
  rewrite (round_half_even_comp _ _ E), round_half_even_Z. reflexivity.
Qed.

(** A whole number of thousandths is its own rounding. *)
Lemma round3_of_millis (n : Q) (k : Z) :
  (n == k # 1000)%Q -> (Py.round3 n == n)%Q.
Proof.
  intros E. unfold Py.round3. rewrite Qred_correct.
  assert (E' : (n * 1000 == inject_Z k)%Q).
  { rewrite E. unfold Qeq, inject_Z. cbn. lia. }
  rewrite (round_half_even_comp _ _ E'), round_half_even_Z.
  rewrite E. unfold Qeq, inject_Z. cbn. lia.
Qed.

(** C4, as the code has it: [move] rounds every value to three decimal
    places before formatting it into the line it transmits, and [speed]
    formats the values exactly as given.  The controller is taken idle;
    [round3] is rounding to thousandths. *)
Theorem move_rounds_speed_does_not
    vx vy vz relative sent0 r1 r2 rest :
  numeric_or_None vx = true ->
  numeric_or_None vy = true ->
  numeric_or_None vz = true ->
  busy_reply r1 = false ->
  (Py.is_not_None vx || Py.is_not_None vy || Py.is_not_None vz = true ->
   MS2000.move vx vy vz relative (mkSerial sent0 (r1 :: r2 :: rest))
   = (inr tt,
      mkSerial (sent0 ++ ["STATUS";
                          (if relative then "MOVREL" else "MOVE")
                            ++ field "X" (Py.round_3 vx)
                            ++ field "Y" (Py.round_3 vy)
                            ++ field "Z" (Py.round_3 vz)])
               rest))
  /\ (Py.truthy (Py.or_ (Py.or_ vx vy) vz) = true ->
      MS2000.speed vx vy vz (mkSerial sent0 (r1 :: r2 :: rest))
      = (inr tt,
         mkSerial (sent0 ++ ["STATUS";
                             "SPEED" ++ field "X" vx ++ field "Y" vy
                                     ++ field "Z" vz])
                  rest))
  /\ (forall q, Py.round_3 (Py.PyFloat q) = Py.PyFloat (Py.round3 q)
                /\ exists k : Z, (Py.round3 q == k # 1000)%Q
                                 /\ (Qabs (Py.round3 q - q) <= 1 # 2000)%Q).
Proof.
  intros Hx Hy Hz Hidle. unfold busy_reply in Hidle.
  assert (Hok : forallb (fun av => numeric_or_None (snd av))
                        [("X", vx); ("Y", vy); ("Z", vz)] = true)
    by (cbn; rewrite Hx, Hy, Hz; reflexivity).
  split; [|split].
  - intros Hany. unfold MS2000.move. rewrite Hany. cbn [negb].
    unfold bind at 1, lift at 1. rewrite (move_fields_text _ _ Hok).
    cbn [map fields fst snd]. rewrite append_nil_r.
    unfold bind, MS2000.status, bind, query, ret. cbn [pending sent].
    rewrite Hidle. cbn [negb pending sent]. rewrite <- app_assoc.
    destruct relative; reflexivity.
  - intros Hany. unfold MS2000.speed. rewrite Hany. cbn [negb].
    unfold bind at 1, lift at 1. rewrite (speed_fields_text _ _ Hok).
    cbn [fields]. rewrite append_nil_r.
    unfold bind, MS2000.status, bind, query, ret. cbn [pending sent].
    rewrite Hidle. cbn [negb pending sent]. rewrite <- app_assoc. reflexivity.
  - intros q. split; [reflexivity | apply round3_spec].
Qed.

(** Against C4 as stated: [speed] transmits 1.23456 with all its decimals;
    rounded to three places it would read 1.235, as [move] sends it. *)
Lemma speed_transmits_unrounded :
  MS2000.speed (Py.PyFloat (123456 # 100000)) Py.PyNone Py.PyNone
    (mkSerial [] ["N"; ":A"])
  = (inr tt, mkSerial ["STATUS"; "SPEED X=1.23456"] [])
  /\ Py.str (Py.round_3 (Py.PyFloat (123456 # 100000))) = "1.235"
  /\ MS2000.move (Py.PyFloat (123456 # 100000)) Py.PyNone Py.PyNone false
       (mkSerial [] ["N"; ":A"])
     = (inr tt, mkSerial ["STATUS"; "MOVE X=1.235"] []).
Proof. repeat split; vm_compute; reflexivity. Qed.

Lemma move_rounds_speed_witness :
  MS2000.move (Py.PyFloat (123456 # 100000)) Py.PyNone (Py.PyInt 7) true
    (mkSerial [] ["N"; ":A"])
  = (inr tt, mkSerial ["STATUS"; "MOVREL X=1.235 Z=7"] [])
  /\ MS2000.speed (Py.PyFloat (123456 # 100000)) Py.PyNone (Py.PyInt 7)
       (mkSerial [] ["N"; ":A"])
     = (inr tt, mkSerial ["STATUS"; "SPEED X=1.23456 Z=7"] []).
Proof.
  destruct (move_rounds_speed_does_not
              (Py.PyFloat (123456 # 100000)) Py.PyNone (Py.PyInt 7) true
              [] "N" ":A" [] eq_refl eq_refl eq_refl eq_refl)
    as [Hmove [Hspeed _]].
  split.
  - rewrite (Hmove eq_refl). vm_compute. reflexivity.
  - rewrite (Hspeed eq_refl). vm_compute. reflexivity.
Defined.

(** ** Blocking moves *)

Lemma elapsed_succ (i : nat) : (elapsed (S i) == elapsed i + POLLING_PERIOD)%Q.
Proof.
  unfold elapsed. rewrite Nat2Z.inj_succ. unfold Z.succ.
  rewrite inject_Z_plus. change (inject_Z 1) with 1%Q. ring.
Qed.

Lemma elapsed_0 : (elapsed 0 == 0)%Q.
Proof. unfold elapsed. change (inject_Z (Z.of_nat 0)) with 0%Q. ring. Qed.

Section Blocking.

Context {D : Type} `{Driver D}.

Lemma moving_run (w : World D) idle d1 :
  drv_status (_stage w) = (inr idle, d1) ->
  moving w
  = (inr (negb idle),
     mkWorld d1 (clock w) (slept w) (motors w) (journal w ++ [Called "status"])).
Proof.
  intros E. unfold moving. rewrite (bind_ok _ _ _ _ _ (on_stage_run _ _ _ _ _ E)).
  reflexivity.
Qed.

(** The loop returns at the first poll that reads idle, provided the time
    limit was not exceeded at any of the busy polls before it. *)
Lemma wait_returns k : forall fuel start_time timeout msg (w : World D) d'',
  first_idle_after k (_stage w) d'' ->
  (k < fuel)%nat ->
  (forall i, (i < k)%nat -> (clock w + elapsed i - start_time <= timeout)%Q) ->
  exists now,
    wait_while_moving fuel start_time timeout msg w
    = (inr tt, mkWorld d'' now (slept w ++ repeat POLLING_PERIOD k) (motors w)
                       (journal w ++ poll_entries k))
    /\ (now == clock w + elapsed k)%Q.
Proof.
  induction k as [|k IH]; intros fuel start_time timeout msg w d''
                                [d' [Hpolls Hidle]] Hfuel Hin.
  - cbn in Hpolls. subst d'.
    destruct fuel as [|fuel]; [inversion Hfuel|]. cbn [wait_while_moving].
    rewrite (bind_ok _ _ _ _ _ (moving_run _ _ _ Hidle)). cbn [negb].
    exists (clock w). split.
    + unfold ret. cbn [repeat]. rewrite app_nil_r. reflexivity.
    + rewrite elapsed_0. ring.
  - destruct Hpolls as [d1 [Hbusy Hpolls]].
    destruct fuel as [|fuel]; [inversion Hfuel|]. cbn [wait_while_moving].
    rewrite (bind_ok _ _ _ _ _ (moving_run _ _ _ Hbusy)). cbn [negb].
    unfold bind at 1, perf_counter at 1. cbn [clock].
    assert (H0 : Py.gt (clock w - start_time) timeout = false).
    { unfold Py.gt. apply negb_false_iff, Qle_bool_iff.
      specialize (Hin 0%nat (Nat.lt_0_succ k)).
      rewrite elapsed_0 in Hin. lra. }
    rewrite H0. unfold bind at 1, sleep at 1.
    cbn [_stage clock slept motors journal].
    destruct (IH fuel start_time timeout msg
                (mkWorld d1 (Qred (clock w + POLLING_PERIOD))
                         (slept w ++ [POLLING_PERIOD]) (motors w)
                         ((journal w ++ [Called "status"])
                            ++ [Slept POLLING_PERIOD])) d'')
      as [now [Hrun Hnow]].
    + exists d'. split; assumption.
    + lia.
    + intros i Hi. cbn [clock]. rewrite Qred_correct.
      specialize (Hin (S i) (proj1 (Nat.succ_lt_mono i k) Hi)).
      rewrite elapsed_succ in Hin. lra.
    + exists now. split.
      * rewrite Hrun. cbn [slept motors journal poll_entries].
        rewrite <- !app_assoc. reflexivity.
      * rewrite Hnow. cbn [clock]. rewrite Qred_correct, elapsed_succ. ring.
Qed.

(** The loop raises at the first busy poll at which the time limit is found
    exceeded. *)
Lemma wait_times_out k : forall fuel start_time timeout msg (w : World D) d'',
  still_busy_after k (_stage w) d'' ->
  (k < fuel)%nat ->
  (forall i, (i < k)%nat -> (clock w + elapsed i - start_time <= timeout)%Q) ->
  (timeout < clock w + elapsed k - start_time)%Q ->
  exists now,
    wait_while_moving fuel start_time timeout msg w
    = (inl (TimeoutError msg timeout),
       mkWorld d'' now (slept w ++ repeat POLLING_PERIOD k) (motors w)
               (journal w ++ poll_entries k)).
Proof.
  induction k as [|k IH]; intros fuel start_time timeout msg w d''
                                [d' [Hpolls Hbusy']] Hfuel Hin Hout.
  - cbn in Hpolls. subst d'.
    destruct fuel as [|fuel]; [inversion Hfuel|]. cbn [wait_while_moving].
    rewrite (bind_ok _ _ _ _ _ (moving_run _ _ _ Hbusy')). cbn [negb].
    unfold bind at 1, perf_counter at 1. cbn [clock].
    assert (H0 : Py.gt (clock w - start_time) timeout = true).
    { unfold Py.gt. apply negb_true_iff.
      destruct (Qle_bool (clock w - start_time) timeout) eqn:E; [|reflexivity].
      apply Qle_bool_iff in E. rewrite elapsed_0 in Hout. lra. }
    rewrite H0. exists (clock w). unfold raise. cbn [repeat].
    rewrite app_nil_r. reflexivity.
  - destruct Hpolls as [d1 [Hbusy Hpolls]].
    destruct fuel as [|fuel]; [inversion Hfuel|]. cbn [wait_while_moving].
    rewrite (bind_ok _ _ _ _ _ (moving_run _ _ _ Hbusy)). cbn [negb].
    unfold bind at 1, perf_counter at 1. cbn [clock].
    assert (H0 : Py.gt (clock w - start_time) timeout = false).
    { unfold Py.gt. apply negb_false_iff, Qle_bool_iff.
      specialize (Hin 0%nat (Nat.lt_0_succ k)).
      rewrite elapsed_0 in Hin. lra. }
    rewrite H0. unfold bind at 1, sleep at 1.
    cbn [_stage clock slept motors journal].
    destruct (IH fuel start_time timeout msg
                (mkWorld d1 (Qred (clock w + POLLING_PERIOD))
                         (slept w ++ [POLLING_PERIOD]) (motors w)
                         ((journal w ++ [Called "status"])
                            ++ [Slept POLLING_PERIOD])) d'')
      as [now Hrun].
    + exists d'. split; assumption.
    + lia.
    + intros i Hi. cbn [clock]. rewrite Qred_correct.
      specialize (Hin (S i) (proj1 (Nat.succ_lt_mono i k) Hi)).
      rewrite elapsed_succ in Hin. lra.
    + cbn [clock]. rewrite Qred_correct. rewrite elapsed_succ in Hout. lra.
    + exists now. rewrite Hrun. cbn [slept motors journal poll_entries].
      rewrite <- !app_assoc. reflexivity.
Qed.

(** Enough fuel: once the time limit lies within [k] polling periods, a loop
    with more than [k] units of fuel ends by itself, with a return, a
    time-out or an error of the driver. *)
Lemma wait_never_out_of_fuel k :
  forall fuel start_time timeout msg (w : World D),
  (forall d, fst (drv_status d) <> inl Diverged) ->
  (k < fuel)%nat ->
  (timeout < clock w + elapsed k - start_time)%Q ->
  fst (wait_while_moving fuel start_time timeout msg w) <> inl Diverged.
Proof.
  induction k as [|k IH]; intros fuel start_time timeout msg w Hdrv Hfuel Hout;
    (destruct fuel as [|fuel]; [inversion Hfuel|]); cbn [wait_while_moving];
    unfold bind at 1, moving at 1, bind at 1, on_stage at 1;
    specialize (Hdrv (_stage w)) as Hs;
    destruct (drv_status (_stage w)) as [[e|idle] d1]; cbn [fst] in Hs;
    try (cbn; congruence);
    unfold ret at 1; destruct idle; cbn [negb]; try (cbn; congruence);
    unfold bind at 1, perf_counter at 1; cbn [clock];
    destruct (Py.gt (clock w - start_time) timeout) eqn:G;
    try (cbn; congruence).
  - exfalso. unfold Py.gt in G. apply negb_false_iff, Qle_bool_iff in G.
    rewrite elapsed_0 in Hout. lra.
  - unfold bind at 1, sleep at 1. cbn [_stage clock slept motors].
    apply IH; [assumption | lia |].
    cbn [clock]. rewrite Qred_correct. rewrite elapsed_succ in Hout. lra.
Qed.

End Blocking.

Lemma elapsed_within (i : nat) : (i <= 600)%nat -> (elapsed i <= 30)%Q.
Proof.
  intros Hi. unfold elapsed.
  assert (Hq : (inject_Z (Z.of_nat i) <= inject_Z 600)%Q)
    by (rewrite <- Zle_Qle; lia).
  assert (HP : (POLLING_PERIOD == 1 # 20)%Q) by reflexivity.
  rewrite HP. change (inject_Z 600) with 600%Q in Hq. lra.
Qed.

Lemma elapsed_601 : (30 < elapsed 601)%Q.
Proof. reflexivity. Qed.

Section BlockingCalls.

Context {D : Type} `{Driver D}.

(** The wait of a blocking call, with the clock read just before it. *)
Lemma timed_wait_returns k fuel timeout msg (w : World D) d'' :
  first_idle_after k (_stage w) d'' ->
  (k < fuel)%nat ->
  (forall i, (i < k)%nat -> (elapsed i <= timeout)%Q) ->
  exists now,
    (start_time <- perf_counter ;;
     wait_while_moving fuel start_time timeout msg)%py w
    = (inr tt, mkWorld d'' now (slept w ++ repeat POLLING_PERIOD k) (motors w)
                       (journal w ++ poll_entries k)).
Proof.
  intros Hidle Hfuel Hin.
  destruct (wait_returns k fuel (clock w) timeout msg w d'' Hidle Hfuel)
    as [now [Hrun _]].
  - intros i Hi. specialize (Hin i Hi). lra.
  - exists now. exact Hrun.
Qed.

Lemma timed_wait_times_out k fuel timeout msg (w : World D) d'' :
  still_busy_after k (_stage w) d'' ->
  (k < fuel)%nat ->
  (forall i, (i < k)%nat -> (elapsed i <= timeout)%Q) ->
  (timeout < elapsed k)%Q ->
  exists now,
    (start_time <- perf_counter ;;
     wait_while_moving fuel start_time timeout msg)%py w
    = (inl (TimeoutError msg timeout),
       mkWorld d'' now (slept w ++ repeat POLLING_PERIOD k) (motors w)
               (journal w ++ poll_entries k)).
Proof.
  intros Hbusy Hfuel Hin Hout.
  destruct (wait_times_out k fuel (clock w) timeout msg w d'' Hbusy Hfuel)
    as [now Hrun].
  - intros i Hi. specialize (Hin i Hi). lra.
  - lra.
  - exists now. exact Hrun.
Qed.

Lemma move_to_blocking_returns
    fuel self target (w w1 w2 : World D) lim k d'' :
  position_limits self w = (inr lim, w1) ->
  within_range lim target = true ->
  stage_move self (Py.PyFloat (Py.round3 (target * ten_e6))) false w1
    = (inr tt, w2) ->
  first_idle_after k (_stage w2) d'' ->
  (k <= 601)%nat ->
  (k < fuel)%nat ->
  exists w3,
    move_to fuel self target true w = (inr tt, w3)
    /\ _stage w3 = d''
    /\ slept w3 = (slept w2 ++ repeat POLLING_PERIOD k)%list.
Proof.
  intros Hlim Hin Hmove Hidle Hk Hfuel.
  destruct (timed_wait_returns k fuel MOVE_TIMEOUT "Move timed out after"
              w2 d'' Hidle Hfuel) as [now Hwait].
  { intros i Hi. apply elapsed_within. lia. }
  unfold move_to.
  rewrite (bind_ok _ _ _ _ _ Hlim), Hin. cbn [negb].
  rewrite (bind_ok _ _ _ _ _ Hmove).
  rewrite (bind_ok _ _ _ _ _ Hwait).
  eexists. split; [reflexivity|]. split; reflexivity.
Qed.

Lemma move_to_blocking_times_out
    fuel self target (w w1 w2 : World D) lim d'' :
  position_limits self w = (inr lim, w1) ->
  within_range lim target = true ->
  stage_move self (Py.PyFloat (Py.round3 (target * ten_e6))) false w1
    = (inr tt, w2) ->
  still_busy_after 601 (_stage w2) d'' ->
  (601 < fuel)%nat ->
  exists w3,
    move_to fuel self target true w
    = (inl (TimeoutError "Move timed out after" MOVE_TIMEOUT), w3)
    /\ _stage w3 = d''.
Proof.
  intros Hlim Hin Hmove Hbusy Hfuel.
  destruct (timed_wait_times_out 601 fuel MOVE_TIMEOUT "Move timed out after"
              w2 d'' Hbusy Hfuel) as [now Hwait].
  { intros i Hi. apply elapsed_within. lia. }
  { exact elapsed_601. }
  unfold move_to.
  rewrite (bind_ok _ _ _ _ _ Hlim), Hin. cbn [negb].
  rewrite (bind_ok _ _ _ _ _ Hmove).
  rewrite (bind_err _ _ _ _ _ Hwait).
  eexists. split; reflexivity.
Qed.

Lemma home_blocking_returns fuel self (w w2 : World D) k d'' :
  on_stage "home" drv_home w = (inr tt, w2) ->
  first_idle_after k (_stage w2) d'' ->
  (k <= 601)%nat ->
  (k < fuel)%nat ->
  exists w3,
    home fuel self true w = (inr tt, w3)
    /\ _stage w3 = d''
    /\ slept w3 = (slept w2 ++ repeat POLLING_PERIOD k)%list.
Proof.
  intros Hhome Hidle Hk Hfuel.
  destruct (timed_wait_returns k fuel HOME_TIMEOUT "Homing timed out after"
              w2 d'' Hidle Hfuel) as [now Hwait].
  { intros i Hi. apply elapsed_within. lia. }
  unfold home. rewrite (bind_ok _ _ _ _ _ Hhome), Hwait.
  eexists. split; [reflexivity|]. split; reflexivity.
Qed.

Lemma home_blocking_times_out fuel self (w w2 : World D) d'' :
  on_stage "home" drv_home w = (inr tt, w2) ->
  still_busy_after 601 (_stage w2) d'' ->
  (601 < fuel)%nat ->
  exists w3,
    home fuel self true w
    = (inl (TimeoutError "Homing timed out after" HOME_TIMEOUT), w3)
    /\ _stage w3 = d''.
Proof.
  intros Hhome Hbusy Hfuel.
  destruct (timed_wait_times_out 601 fuel HOME_TIMEOUT "Homing timed out after"
              w2 d'' Hbusy Hfuel) as [now Hwait].
  { intros i Hi. apply elapsed_within. lia. }
  { exact elapsed_601. }
  unfold home. rewrite (bind_ok _ _ _ _ _ Hhome), Hwait.
  eexists. split; reflexivity.
Qed.

End BlockingCalls.

(** C9: a blocking [move_to] (and a blocking [home]) polls [moving] every
    [POLLING_PERIOD] and returns at the first poll that reads false; if the
    polls still read true once more than the time limit (30 s, that is 601
    sleeps) has been slept, it raises the [TimeoutError] of the call.  Time
    is taken to pass in [time.sleep] only.  Against the driver stub that
    reports busy twice and then idle, a blocking move to 2 within limits
    -5 .. 5 returns after exactly three status polls. *)
Theorem blocking_calls_poll_until_idle_or_timeout :
  (forall D (drv : Driver D) fuel self target (w w1 w2 : World D) lim k d'',
      position_limits self w = (inr lim, w1) ->
      within_range lim target = true ->
      stage_move self (Py.PyFloat (Py.round3 (target * ten_e6))) false w1
        = (inr tt, w2) ->
      first_idle_after k (_stage w2) d'' ->
      (k <= 601)%nat ->
      (k < fuel)%nat ->
      exists w3,
        move_to fuel self target true w = (inr tt, w3)
        /\ _stage w3 = d''
        /\ slept w3 = (slept w2 ++ repeat POLLING_PERIOD k)%list)
  /\ (forall D (drv : Driver D) fuel self target (w w1 w2 : World D) lim d'',
        position_limits self w = (inr lim, w1) ->
        within_range lim target = true ->
        stage_move self (Py.PyFloat (Py.round3 (target * ten_e6))) false w1
          = (inr tt, w2) ->
        still_busy_after 601 (_stage w2) d'' ->
        (601 < fuel)%nat ->
        exists w3,
          move_to fuel self target true w
          = (inl (TimeoutError "Move timed out after" MOVE_TIMEOUT), w3)
          /\ _stage w3 = d'')
  /\ (forall D (drv : Driver D) fuel self (w w2 : World D) k d'',
        on_stage "home" drv_home w = (inr tt, w2) ->
        first_idle_after k (_stage w2) d'' ->
        (k <= 601)%nat ->
        (k < fuel)%nat ->
        exists w3,
          home fuel self true w = (inr tt, w3)
          /\ _stage w3 = d''
          /\ slept w3 = (slept w2 ++ repeat POLLING_PERIOD k)%list)
  /\ (forall D (drv : Driver D) fuel self (w w2 : World D) d'',
        on_stage "home" drv_home w = (inr tt, w2) ->
        still_busy_after 601 (_stage w2) d'' ->
        (601 < fuel)%nat ->
        exists w3,
          home fuel self true w
          = (inl (TimeoutError "Homing timed out after" HOME_TIMEOUT), w3)
          /\ _stage w3 = d'')
  /\ (exists w3,
        @move_to _ Stub_Driver 700 x_axis 2 true blocking_scenario
        = (inr tt, w3)
        /\ status_polls (_stage w3) = 3%nat
        /\ busy_script (_stage w3) = []
        /\ moves (_stage w3)
           = [(Py.PyFloat 20000000, Py.PyNone, Py.PyNone, false)]
        /\ slept w3 = [POLLING_PERIOD; POLLING_PERIOD]).
Proof.
  split; [|split; [|split; [|split]]].
  - intros. eapply move_to_blocking_returns; eassumption.
  - intros. eapply move_to_blocking_times_out; eassumption.
  - intros. eapply home_blocking_returns; eassumption.
  - intros. eapply home_blocking_times_out; eassumption.
  - eexists. split; [vm_compute; reflexivity|]. repeat split.
Qed.

Lemma blocking_move_three_polls_witness :
  exists w3,
    @move_to _ Stub_Driver 700 x_axis 2 true blocking_scenario = (inr tt, w3)
    /\ _stage w3
       = mkStub [] 3 [(Py.PyFloat 20000000, Py.PyNone, Py.PyNone, false)]
    /\ slept w3 = (slept blocking_scenario_moved ++ repeat POLLING_PERIOD 2)%list.
Proof.
  apply (proj1 blocking_calls_poll_until_idle_or_timeout
           Stub Stub_Driver 700%nat x_axis 2%Q blocking_scenario
           blocking_scenario_limits blocking_scenario_moved
           (mkRange (-5) 5) 2%nat).
  - reflexivity.
  - reflexivity.
  - reflexivity.
  - eexists. split.
    + eexists. split; [reflexivity|].
      eexists. split; [reflexivity|]. reflexivity.
    + reflexivity.
  - lia.
  - lia.
Defined.

(** ** Unit conversion *)

(** [round(q, 3)] is the same on equal rationals. *)
Lemma round3_comp (p q : Q) : (p == q)%Q -> Py.round3 p = Py.round3 q.
Proof.
  intros E. unfold Py.round3.
  assert (E' : (p * 1000 == q * 1000)%Q) by (rewrite E; reflexivity).
  rewrite (round_half_even_comp _ _ E'). reflexivity.
Qed.

(** The facade's factor, in millimetres: a target times [10e6] is its
    length in millimetres times 10000. *)
Lemma millimetres_native (target : Q) :
  (target * ten_e6 == millimetres target * 10000)%Q.
Proof. unfold millimetres, ten_e6. ring. Qed.

Section Conversion.

Variable depth : nat.
Let real : Driver Serial := MS2000_Driver (S depth).
#[local] Existing Instance real.

(** C1: the factor between native and engineering values is 10000 native
    increments per millimetre in both directions.  When the position query
    returns [n] for the axis, the [position] read returns (and remembers) a
    position of [n] / 10000 millimetres.  [move_to] of any target, [t]
    millimetres long, within the limits and with the controller idle,
    transmits one absolute move of that axis alone to the native value
    [t] * 10000, written to three decimals: the value transmitted is at most
    half a thousandth of a native increment away from [t] * 10000, and is
    [t] * 10000 itself whenever that is a whole number of thousandths. *)
Theorem native_conversion_factor self :
  (forall (w : World Serial) sent0 reply rest t n,
      _stage w = mkSerial sent0 (reply :: rest) ->
      coords_of reply = inr t ->
      length t = 3%nat ->
      nth_error t (axis_idx self) = Some n ->
      exists p w',
        position self w = (inr p, w')
        /\ (millimetres p == n / 10000)%Q
        /\ _prev_position (motors w' self) = Some p
        /\ _stage w' = mkSerial (sent0 ++ ["WHERE X Y Z"]) rest)
  /\ (forall fuel (w w1 : World Serial) lim target sent0 r1 r2 rest,
        position_limits self w = (inr lim, w1) ->
        within_range lim target = true ->
        _stage w1 = mkSerial sent0 (r1 :: r2 :: rest) ->
        busy_reply r1 = false ->
        exists w',
          move_to fuel self target false w = (inr tt, w')
          /\ _stage w'
             = mkSerial
                 (sent0 ++ ["STATUS";
                            "MOVE " ++ axis_letter self ++ "="
                              ++ Py.str_float
                                   (Py.round3 (millimetres target * 10000))])
                 rest)
  /\ (forall t : Q,
        (Qabs (Py.round3 (t * 10000) - t * 10000) <= 1 # 2000)%Q)
  /\ (forall (t : Q) (k : Z),
        (t * 10000 == k # 1000)%Q -> (Py.round3 (t * 10000) == t * 10000)%Q).
Proof.
  split; [|split; [|split]].
  - intros w sent0 reply rest t n Hs Hc Hl Hn. unfold position.
    rewrite (bind_ok _ _ _ _ _ (where_all depth w sent0 reply rest t Hs Hc Hl)).
    unfold index. rewrite Hn. unfold bind, ret, get_motor, set_motor.
    cbn [_stage clock slept motors journal].
    exists (n / ten_e6)%Q. eexists. split; [reflexivity|].
    split; [unfold millimetres, ten_e6; field|].
    cbn [motors]. destruct self; cbn; split; reflexivity.
  - intros fuel w w1 lim target sent0 r1 r2 rest Hlim Hin Hs Hidle.
    unfold move_to. rewrite (bind_ok _ _ _ _ _ Hlim), Hin. cbn [negb].
    unfold real.
    erewrite (bind_ok _ _ _ _ _
                (stage_move_idle (S depth) self
                   (Py.PyFloat (Py.round3 (target * ten_e6)))
                   false w1 sent0 r1 r2 rest Hs eq_refl Hidle)).
    unfold bind, ret, perf_counter, get_motor, set_motor.
    cbn [_stage clock slept motors journal].
    eexists. split; [reflexivity|]. cbn [_stage]. unfold move_line.
    cbn [Py.round_3 Py.str]. rewrite round3_idempotent.
    rewrite (round3_comp _ _ (millimetres_native target)).
    destruct self; reflexivity.
  - intros t. destruct (round3_spec (t * 10000)) as [k [_ Hclose]].
    exact Hclose.
  - intros t k E. exact (round3_of_millis _ k E).
Qed.

End Conversion.

Lemma native_conversion_witness :
  exists p w',
    @position _ (MS2000_Driver 100) x_axis at_10000_scenario = (inr p, w')
    /\ (millimetres p == 10000 / 10000)%Q
    /\ _prev_position (motors w' x_axis) = Some p
    /\ _stage w' = mkSerial ([] ++ ["WHERE X Y Z"]) [].
Proof.
  apply (proj1 (native_conversion_factor 99 x_axis)
           at_10000_scenario [] ":A 10000 0 0" [] [10000; 0; 0]%Q 10000%Q);
    reflexivity.
Defined.

(** One millimetre both ways: a native reading of 10000 is the position of
    0.001 m, and a move to that position is sent as 10000. *)
Example one_millimetre_both_ways :
  fst (@position _ (MS2000_Driver 100) x_axis at_10000_scenario)
    = inr (10000 / ten_e6)%Q
  /\ (10000 / ten_e6 == Position_mm 1)%Q
  /\ (millimetres (Position_mm 1) == 1)%Q
  /\ sent (_stage (snd (@move_to _ (MS2000_Driver 100) 700 x_axis
                          (Position_mm 1) false idle_limits_scenario)))
     = ["STATUS"; "MOVE X=10000.0"].
Proof.
  split; [vm_compute; reflexivity|].
  split; [reflexivity|].
  split; [reflexivity|].
  vm_compute. reflexivity.
Qed.

(** The blocking scenario through the real driver: [move] spends a status
    query of its own before the three polls; a controller that is busy from
    the start refuses the move. *)
Example blocking_move_real_driver :
  sent (_stage (snd (@move_to _ (MS2000_Driver 100) 700 x_axis 2 true
                       (configured_world
                          (mkSerial [] ["N"; ":A"; "B"; "B"; "N"])
                          (Some (mkRange (-5) 5))))))
  = ["STATUS"; "MOVE X=20000000.0"; "STATUS"; "STATUS"; "STATUS"]
  /\ fst (@move_to _ (MS2000_Driver 100) 700 x_axis 2 true
            (configured_world (mkSerial [] ["B"; "B"; "N"])
                              (Some (mkRange (-5) 5))))
     = inl (RuntimeError "Device is busy moving!").
Proof. split; vm_compute; reflexivity. Qed.

(** * Further properties of the driver *)

(** ** What a position query returns *)

Lemma position_all_three depth : forall d cs d',
  MS2000.position depth true true true d = (inr cs, d') ->
  length cs = 3%nat.
Proof.
  induction depth as [|depth IH]; intros d cs d'; cbn -[MS2000.floats Py.split].
  - discriminate.
  - unfold bind, query, lift.
    destruct (pending d) as [|reply rest]; [discriminate|].
    destruct (MS2000.floats 0 (tl (Py.split reply))) as [e|coords];
      [discriminate|].
    destruct (length coords =? 3)%nat eqn:E.
    + intros R. inversion R. subst. apply Nat.eqb_eq. exact E.
    + apply IH.
Qed.

(** X1: a position query that returns holds as many coordinates as axes were
    requested, or three: the values of the retry, which asks for all axes. *)
Theorem position_returns_requested_count_or_three
    depth ax ay az d cs d' :
  MS2000.position depth ax ay az d = (inr cs, d') ->
  length cs = (Nat.b2n ax + Nat.b2n ay + Nat.b2n az)%nat
  \/ length cs = 3%nat.
Proof.
  destruct depth as [|depth]; cbn -[MS2000.floats Py.split Nat.eqb Nat.b2n].
  - discriminate.
  - destruct (negb (ax || ay || az)); [discriminate|].
    unfold bind, query, lift.
    destruct (pending d) as [|reply rest]; [discriminate|].
    destruct (MS2000.floats 0 (tl (Py.split reply))) as [e|coords];
      [discriminate|].
    destruct (length coords =? Nat.b2n ax + Nat.b2n ay + Nat.b2n az)%nat eqn:E.
    + intros R. inversion R. subst. left. apply Nat.eqb_eq. exact E.
    + intros R. right. eapply position_all_three. exact R.
Qed.

Lemma position_returns_count_witness :
  length [1; 2; 3]%Q = (Nat.b2n true + Nat.b2n false + Nat.b2n false)%nat
  \/ length [1; 2; 3]%Q = 3%nat.
Proof.
  apply (position_returns_requested_count_or_three 100 true false false
           (mkSerial [] [":A 1 2"; ":A 1 2 3"]) [1; 2; 3]%Q
           (mkSerial ["WHERE X"; "WHERE X Y Z"] [])).
  vm_compute. reflexivity.
Defined.

(** ** What a move transmits *)

Lemma prefix_append (a b : string) : String.prefix a (a ++ b) = true.
Proof.
  induction a as [|c a IH]; cbn.
  - destruct b; reflexivity.
  - destruct (ascii_dec c c) as [_|N]; [exact IH | contradiction].
Qed.

Lemma move_fields_outcome args : forall instruction,
  match MS2000.move_fields instruction args with
  | inl e => exists msg, e = TypeError msg
  | inr line => String.prefix instruction line = true
  end.
Proof.
  induction args as [|[a v] args IH]; intros instruction; cbn.
  - rewrite <- (append_nil_r instruction) at 2. apply prefix_append.
  - destruct (Py.is_not_None v); [|apply IH].
    destruct (Py.is_numeric v); cbn; [|eauto].
    specialize (IH (instruction ++ " " ++ a ++ "=" ++ Py.str (Py.round_3 v))).
    destruct (MS2000.move_fields _ args) as [e|line]; [exact IH|].
    destruct (String.prefix instruction line) eqn:P; [reflexivity|].
    exfalso.
    assert (Hp : forall p q r, String.prefix (p ++ q) r = true ->
                               String.prefix p r = true).
    { induction p as [|c p IHp]; intros q r.
      - intros _. destruct r; reflexivity.
      - destruct r as [|c' r]; cbn; [discriminate|].
        destruct (ascii_dec c c'); [apply IHp | discriminate]. }
    rewrite (Hp _ _ _ IH) in P. discriminate.
Qed.



(** ** Limits, one bound at a time *)

(** X3: [setLimit] checks and transmits the lower bound before it looks at the
    upper one: with a numeric lower bound and an upper bound that is not a
    number, the lower limit is already set on the controller when the
    [TypeError] is raised.  The other way round nothing is transmitted. *)
Theorem setLimit_sets_lower_before_rejecting_upper
    axis lower (s : string) (d : Serial) reply rest :
  In axis ["X"; "Y"; "Z"] ->
  Py.is_numeric lower = true ->
  Py.truthy lower = true \/ s <> "" ->
  pending d = reply :: rest ->
  MS2000.setLimit axis lower (Py.PyStr s) d
  = (inl (TypeError (axis ++ " limit must be numeric type!")),
     mkSerial (sent d ++ ["SETLOW " ++ axis ++ "=" ++ Py.str lower]) rest)
  /\ MS2000.setLimit axis (Py.PyStr s) lower d
     = (inl (TypeError (axis ++ " limit must be numeric type!")), d).
Proof.
  intros Hax Hnum Htruthy Hpend.
  assert (Hvalid : existsb (String.eqb axis) ["X"; "Y"; "Z"] = true).
  { apply existsb_exists. exists axis. split; [assumption|].
    apply String.eqb_refl. }
  assert (Hs : s <> "" -> Py.truthy (Py.PyStr s) = true).
  { intros Hne. cbn. destruct (String.eqb_spec s ""); [contradiction|].
    reflexivity. }
  assert (Hnn : Py.is_not_None lower = true)
    by (destruct lower; try discriminate Hnum; reflexivity).
  unfold MS2000.setLimit. rewrite Hvalid. cbn [negb]. split.
  - assert (Hg : Py.truthy (Py.or_ lower (Py.PyStr s)) = true).
    { unfold Py.or_. destruct Htruthy as [T|Hne].
      - rewrite T. exact T.
      - destruct (Py.truthy lower) eqn:T; [exact T | exact (Hs Hne)]. }
    rewrite Hg, Hnn, Hnum. cbn [negb Py.is_not_None Py.is_numeric].
    unfold bind, query, ret, raise. rewrite Hpend. reflexivity.
  - assert (Hg : Py.truthy (Py.or_ (Py.PyStr s) lower) = true).
    { unfold Py.or_. destruct Htruthy as [Tl|Hne].
      - destruct (Py.truthy (Py.PyStr s)) eqn:T; [exact T | exact Tl].
      - rewrite (Hs Hne). exact (Hs Hne). }
    rewrite Hg. cbn [negb Py.is_not_None Py.is_numeric].
    unfold bind, raise. reflexivity.
Qed.

Lemma setLimit_sets_lower_witness :
  MS2000.setLimit "Y" (Py.PyFloat (5 # 2)) (Py.PyStr "high")
    (mkSerial [] [":A"; ":A"])
  = (inl (TypeError "Y limit must be numeric type!"),
     mkSerial ["SETLOW Y=2.5"] [":A"]).
Proof.
  apply (setLimit_sets_lower_before_rejecting_upper
           "Y" (Py.PyFloat (5 # 2)) "high" (mkSerial [] [":A"; ":A"])
           ":A" [":A"]).
  - right. left. reflexivity.
  - reflexivity.
  - left. reflexivity.
  - reflexivity.
Defined.

(** ** Speeds of zero *)

(** X4: [speed] tests its arguments for truth, [move] for [None]: values that
    are all zero or [None] are refused by [speed] before anything is
    transmitted, while [move] accepts a zero coordinate like any other. *)
Theorem speed_refuses_zero_move_accepts_it vx vy vz (d : Serial) :
  Py.truthy vx = false ->
  Py.truthy vy = false ->
  Py.truthy vz = false ->
  MS2000.speed vx vy vz d
  = (inl (ValueError "Must specify at least one axis"), d)
  /\ (forall sent0 r1 r2 rest relative,
        busy_reply r1 = false ->
        MS2000.move (Py.PyInt 0) Py.PyNone Py.PyNone relative
          (mkSerial sent0 (r1 :: r2 :: rest))
        = (inr tt,
           mkSerial (sent0 ++ ["STATUS"; move_line relative x_axis (Py.PyInt 0)])
                    rest)).
Proof.
  intros Hx Hy Hz. split.
  - unfold MS2000.speed, Py.or_. rewrite Hx, Hy, Hz. reflexivity.
  - intros sent0 r1 r2 rest relative Hidle. unfold busy_reply in Hidle.
    unfold MS2000.move, move_line.
    cbn -[Py.contains Py.strip Py.str].
    unfold bind, lift, MS2000.status, bind, query, ret.
    cbn -[Py.contains Py.strip Py.str].
    destruct relative; cbn -[Py.contains Py.strip Py.str];
      rewrite Hidle; cbn -[Py.contains Py.strip Py.str];
      rewrite <- app_assoc; reflexivity.
Qed.

Lemma speed_refuses_zero_witness :
  MS2000.speed (Py.PyInt 0) Py.PyNone (Py.PyFloat 0) (mkSerial [] ["N"; ":A"])
  = (inl (ValueError "Must specify at least one axis"),
     mkSerial [] ["N"; ":A"]).
Proof.
  apply (speed_refuses_zero_move_accepts_it
           (Py.PyInt 0) Py.PyNone (Py.PyFloat 0) (mkSerial [] ["N"; ":A"]));
    reflexivity.
Defined.

(** ** Connection *)

Lemma open_resource_listed name resources dev :
  MS2000.open_resource name resources = inr dev ->
  In (MS2000.mkResource name (Some dev)) resources.
Proof.
  induction resources as [|[n o] rs IH]; cbn; [discriminate|].
  destruct (String.eqb_spec name n) as [->|Hne].
  - destruct o as [d|]; [|discriminate]. intros E. inversion E. left.
    reflexivity.
  - intros E. right. apply IH. exact E.
Qed.

(** X5: connection by explicit resource name succeeds only on a listed resource
    that opens and whose reply to the identity query contains "ASI-MS2000";
    the object's [stage] is then that link with WHO as the one line
    transmitted on it, one session has been opened, for that name, and
    nothing has been printed. *)
Theorem explicit_connection_checks_identity name rm self rm' :
  MS2000.init (Some name) rm = (inr self, rm') ->
  exists device who rest,
    In (MS2000.mkResource name (Some device)) (MS2000.listed rm)
    /\ pending device = who :: rest
    /\ Py.contains "ASI-MS2000" who = true
    /\ MS2000.stage self = mkSerial (sent device ++ ["WHO"]) rest
    /\ MS2000.sessions rm' = (MS2000.sessions rm ++ [name])%list
    /\ MS2000.stdout rm' = MS2000.stdout rm.
Proof.
  unfold MS2000.init.
  destruct (MS2000.name_in name (MS2000.listed rm)); [|discriminate].
  destruct (MS2000.open_resource name (MS2000.listed rm)) as [e|device] eqn:O;
    [discriminate|].
  unfold query. destruct (pending device) as [|who rest] eqn:P; [discriminate|].
  destruct (Py.contains "ASI-MS2000" who) eqn:C; cbn [negb]; [|discriminate].
  intros E. inversion E. exists device, who, rest.
  split; [apply open_resource_listed; exact O|]. cbn. auto 6.
Qed.

Lemma explicit_connection_witness :
  exists device who rest,
    In (MS2000.mkResource "COM3" (Some device)) two_ports
    /\ pending device = who :: rest
    /\ Py.contains "ASI-MS2000" who = true
    /\ mkSerial ["WHO"] [] = mkSerial (sent device ++ ["WHO"]) rest
    /\ ["COM3"] = ([] ++ ["COM3"])%list
    /\ @nil string = [].
Proof.
  apply (explicit_connection_checks_identity "COM3"
           (MS2000.mkManager two_ports [] [])
           (MS2000.mkMS2000 (mkSerial ["WHO"] []))
           (MS2000.mkManager
              [MS2000.mkResource "COM1" None;
               MS2000.mkResource "COM3" (Some (mkSerial ["WHO"] []))]
              ["COM3"] [])).
  reflexivity.
Defined.

(** The loop passes over the resources that do not open or do not answer:
    those that opened have been asked and stay open. *)
Lemma probe_passes_over_silent pre : forall post idn,
  forallb (fun r => negb (responds r)) pre = true ->
  MS2000.probe (pre ++ post) idn
  = MS2000.mkProbed
      (map asked pre ++ MS2000.probed (MS2000.probe post idn))
      (opened_names pre ++ MS2000.opened (MS2000.probe post idn))
      (MS2000.idn_local (MS2000.probe post idn))
      (MS2000.found (MS2000.probe post idn)).
Proof.
  induction pre as [|r pre IH]; intros post idn Hpre.
  - cbn [app map opened_names]. destruct (MS2000.probe post idn); reflexivity.
  - cbn [forallb] in Hpre. apply andb_true_iff in Hpre as [Hr Hpre].
    cbn [app MS2000.probe map opened_names]. unfold responds in Hr.
    unfold asked at 1.
    destruct (MS2000.res_open r) as [device|] eqn:O.
    + unfold query. destruct (pending device) eqn:P; [|discriminate Hr].
      rewrite (IH post idn Hpre). reflexivity.
    + rewrite (IH post idn Hpre). destruct r as [n o]. cbn in O. subst o.
      reflexivity.
Qed.

(** X6: probing goes through the resources in the order listed, passes over
    those that do not open or do not answer, and connects to the first that
    answers the identity query: the object's [stage] is that resource's link
    after the one query.  The resources listed after it are left as they
    were and no session is opened for them: the sessions opened are those of
    the resources passed over that opened, then the selected one, and the
    one line printed names it. *)
Theorem probe_connects_to_first_responder
    pre r post device who rest names out :
  forallb (fun r => negb (responds r)) pre = true ->
  MS2000.res_open r = Some device ->
  pending device = who :: rest ->
  MS2000.init None (MS2000.mkManager (pre ++ r :: post) names out)
  = (inr (MS2000.mkMS2000 (mkSerial (sent device ++ ["WHO"]) rest)),
     MS2000.mkManager
       (map asked pre
          ++ MS2000.mkResource (MS2000.res_name r)
               (Some (mkSerial (sent device ++ ["WHO"]) rest))
          :: post)%list
       (names ++ opened_names pre ++ [MS2000.res_name r])%list
       (out ++ [("Found " ++ who ++ " at: " ++ MS2000.res_name r)%string])%list).
Proof.
  intros Hpre Hopen Hpend. unfold MS2000.init. cbn [MS2000.listed].
  rewrite (probe_passes_over_silent pre (r :: post) None Hpre).
  cbn [MS2000.probe]. rewrite Hopen. unfold query. rewrite Hpend. reflexivity.
Qed.

Lemma probe_first_responder_witness :
  MS2000.init None
    (MS2000.mkManager
       ([MS2000.mkResource "COM1" None;
         MS2000.mkResource "COM2" (Some (mkSerial [] []))]
          ++ MS2000.mkResource "COM3" (Some (mkSerial [] ["ASI-MS2000"]))
          :: [MS2000.mkResource "COM4" (Some (mkSerial [] ["ASI-MS2000"]))])
       [] [])
  = (inr (MS2000.mkMS2000 (mkSerial ["WHO"] [])),
     MS2000.mkManager
       [MS2000.mkResource "COM1" None;
        MS2000.mkResource "COM2" (Some (mkSerial ["WHO"] []));
        MS2000.mkResource "COM3" (Some (mkSerial ["WHO"] []));
        MS2000.mkResource "COM4" (Some (mkSerial [] ["ASI-MS2000"]))]
       ["COM2"; "COM3"]
       ["Found ASI-MS2000 at: COM3"]).
Proof.
  apply (probe_connects_to_first_responder
           [MS2000.mkResource "COM1" None;
            MS2000.mkResource "COM2" (Some (mkSerial [] []))]
           (MS2000.mkResource "COM3" (Some (mkSerial [] ["ASI-MS2000"])))
           [MS2000.mkResource "COM4" (Some (mkSerial [] ["ASI-MS2000"]))]
           (mkSerial [] ["ASI-MS2000"]) "ASI-MS2000" [] [] []);
    reflexivity.
Defined.

(** X7: when no listed resource opens and answers (an empty list included),
    probing ends in the [UnboundLocalError] of the message it tries to
    build, not in the "Instrument not found" [RuntimeError]; every resource
    that opened has been asked and its session is left open, and nothing is
    printed. *)
Theorem probe_without_responder_is_unbound_local resources names out :
  forallb (fun r => negb (responds r)) resources = true ->
  MS2000.init None (MS2000.mkManager resources names out)
  = (inl (UnboundLocalError "idn"),
     MS2000.mkManager (map asked resources)
                      (names ++ opened_names resources)%list out).
Proof.
  intros Hnone. unfold MS2000.init. cbn [MS2000.listed].
  pose proof (probe_passes_over_silent resources [] None Hnone) as P.
  rewrite app_nil_r in P. rewrite P.
  cbn. rewrite !app_nil_r. reflexivity.
Qed.

Lemma probe_without_responder_witness :
  MS2000.init None
    (MS2000.mkManager [MS2000.mkResource "COM1" None;
                       MS2000.mkResource "COM2" (Some (mkSerial [] []))]
                      [] [])
  = (inl (UnboundLocalError "idn"),
     MS2000.mkManager [MS2000.mkResource "COM1" None;
                       MS2000.mkResource "COM2" (Some (mkSerial ["WHO"] []))]
                      ["COM2"] []).
Proof.
  apply (probe_without_responder_is_unbound_local
           [MS2000.mkResource "COM1" None;
            MS2000.mkResource "COM2" (Some (mkSerial [] []))] [] []).
  reflexivity.
Defined.

(** ** The busy flag *)

Lemma contains_B_chars (s : string) :
  Py.contains "B" s = existsb (Ascii.eqb "B") (chars s).
Proof.
  induction s as [|c s IH]; [reflexivity|].
  cbn [Py.contains chars existsb String.prefix]. rewrite IH.
  destruct (ascii_dec "B" c) as [<-|N].
  - cbn. destruct s; reflexivity.
  - destruct (Ascii.eqb_spec "B" c) as [E|_]; [contradiction|]. reflexivity.
Qed.

Lemma space_is_not_B (c : ascii) :
  Py.is_space c = true -> Ascii.eqb "B" c = false.
Proof.
  destruct (Ascii.eqb_spec "B" c) as [<-|N]; [discriminate | reflexivity].
Qed.

Lemma lstrip_keeps_B (s : string) :
  existsb (Ascii.eqb "B") (chars (Py.lstrip s))
  = existsb (Ascii.eqb "B") (chars s).
Proof.
  induction s as [|c s IH]; [reflexivity|].
  cbn [Py.lstrip]. destruct (Py.is_space c) eqn:Sp; [|reflexivity].
  cbn [chars existsb]. rewrite (space_is_not_B c Sp). exact IH.
Qed.

Lemma rstrip_keeps_B (s : string) :
  existsb (Ascii.eqb "B") (chars (Py.rstrip s))
  = existsb (Ascii.eqb "B") (chars s).
Proof.
  induction s as [|c s IH]; [reflexivity|].
  cbn [Py.rstrip].
  destruct (Py.is_space c && String.eqb (Py.rstrip s) "")%bool eqn:E.
  - apply andb_true_iff in E as [Sp Em]. apply String.eqb_eq in Em.
    cbn [chars existsb]. rewrite (space_is_not_B c Sp), <- IH, Em.
    reflexivity.
  - cbn [chars existsb]. rewrite IH. reflexivity.
Qed.

(** X8: [status] reads the controller as moving exactly when the reply holds a
    capital B somewhere, wherever it stands in the line; the query costs one
    exchange. *)
Theorem status_is_idle_iff_no_B sent0 reply rest :
  MS2000.status (mkSerial sent0 (reply :: rest))
  = (inr (negb (existsb (Ascii.eqb "B") (chars reply))),
     mkSerial (sent0 ++ ["STATUS"]) rest).
Proof.
  unfold MS2000.status, bind, query, ret. cbn [pending sent].
  unfold Py.strip.
  rewrite contains_B_chars, rstrip_keeps_B, lstrip_keeps_B. reflexivity.
Qed.

(** * Further properties of the facade *)

(** ** The limits cache *)

Lemma axis_eqb_refl (a : axis) : axis_eqb a a = true.
Proof. destruct a; reflexivity. Qed.

Section LimitsCache.

Context {D : Type} `{Driver D}.

(** X9: [position_limits] is read from the driver at most once per axis: after
    a read that returned, every later read returns the same range and
    leaves the world, driver included, as it is; a read that raised has
    cached nothing and changed no axis object. *)
Theorem position_limits_read_once self (w w1 : World D) :
  (forall r,
      position_limits self w = (inr r, w1) ->
      position_limits self w1 = (inr r, w1))
  /\ (forall e,
        position_limits self w = (inl e, w1) ->
        motors w1 = motors w).
Proof.
  unfold position_limits, get_motor, set_motor.
  split.
  - intros r. unfold bind at 1.
    destruct (position_limits_cache (motors w self)) as [c|] eqn:C.
    + intros E. inversion E. subst. unfold bind. rewrite C. reflexivity.
    + unfold bind at 1.
      destruct (match _position_limits (motors w self) with
                | Some r0 => ret r0
                | None => _
                end w) as [[e|r0] w0]; [discriminate|].
      unfold bind, ret. intros E. inversion E. subst. cbn [motors].
      rewrite axis_eqb_refl. reflexivity.
  - intros e. unfold bind at 1.
    destruct (position_limits_cache (motors w self)) as [c|]; [discriminate|].
    unfold bind at 1.
    destruct (_position_limits (motors w self)) as [c|].
    + unfold bind, ret. discriminate.
    + unfold bind at 1, on_stage.
      destruct (drv_limits true true true (_stage w)) as [[e1|lims] d1].
      * intros E. inversion E. reflexivity.
      * unfold bind at 1, index.
        destruct (nth_error lims (axis_idx self)) as [lu|].
        -- unfold bind, ret, lift.
           destruct (PositionRange_new (fst lu / ten_e6) (snd lu / ten_e6)).
           ++ intros E. inversion E. reflexivity.
           ++ discriminate.
        -- unfold raise. intros E. inversion E. reflexivity.
Qed.

End LimitsCache.

Lemma position_limits_read_once_witness :
  @position_limits _ (MS2000_Driver 100) x_axis
    (snd (@position_limits _ (MS2000_Driver 100) x_axis
            (serial_world [":A X=-5 Y=-5 Z=-1"; ":A X=5 Y=5 Z=1"])))
  = (inr (mkRange (-5 / ten_e6) (5 / ten_e6)),
     snd (@position_limits _ (MS2000_Driver 100) x_axis
            (serial_world [":A X=-5 Y=-5 Z=-1"; ":A X=5 Y=5 Z=1"]))).
Proof.
  apply (proj1 (@position_limits_read_once _ (MS2000_Driver 100) x_axis
                  (serial_world [":A X=-5 Y=-5 Z=-1"; ":A X=5 Y=5 Z=1"]) _)).
  reflexivity.
Defined.

(** ** The homed heuristic *)

Lemma within_one_iff (n : Q) :
  (Qabs (n / ten_e6) < 1)%Q <-> (Qabs n < 10000000)%Q.
Proof.
  assert (E : (n / ten_e6 == n * (1 # 10000000))%Q)
    by (unfold ten_e6; field).
  split; intros Hlt.
  - apply Qabs_Qlt_condition in Hlt. rewrite E in Hlt.
    apply Qabs_Qlt_condition. split; lra.
  - apply Qabs_Qlt_condition in Hlt.
    apply Qabs_Qlt_condition. rewrite E. split; lra.
Qed.

Section Homed.

Context {D : Type} `{Driver D}.

(** X10: [homed] holds exactly when the native reading of the axis is strictly
    less than 10000000 units away from the origin: the comparison with 1.0
    is made on the reading divided by [10e6]. *)
Theorem homed_iff_within_ten_million_native self (w w1 : World D) t n :
  on_stage "position" (drv_position true true true) w = (inr t, w1) ->
  nth_error t (axis_idx self) = Some n ->
  exists b w2,
    homed self w = (inr b, w2)
    /\ _stage w2 = _stage w1
    /\ (b = true <-> (Qabs n < 10000000)%Q).
Proof.
  intros Hpos Hn. unfold homed, position.
  exists (Py.lt (Qabs (n / ten_e6)) 1). eexists. split; [|split].
  - unfold bind at 1. unfold bind at 1. rewrite Hpos.
    unfold bind at 1, index. rewrite Hn. unfold ret at 1.
    unfold bind, get_motor, set_motor, ret. reflexivity.
  - reflexivity.
  - rewrite <- within_one_iff. unfold Py.lt. rewrite negb_true_iff.
    split.
    + intros Hf. apply Qnot_le_lt. intros Hle.
      apply Qle_bool_iff in Hle. rewrite Hle in Hf. discriminate.
    + intros Hlt. destruct (Qle_bool 1 (Qabs (n / ten_e6))) eqn:E;
        [|reflexivity].
      apply Qle_bool_iff in E. exfalso. exact (Qlt_not_le _ _ Hlt E).
Qed.

End Homed.

Lemma homed_witness :
  exists b w2,
    @homed _ (MS2000_Driver 100) y_axis (serial_world [":A 0 9999999 0"])
    = (inr b, w2)
    /\ _stage w2 = mkSerial ["WHERE X Y Z"] []
    /\ (b = true <-> (Qabs 9999999 < 10000000)%Q).
Proof.
  apply (@homed_iff_within_ten_million_native _ (MS2000_Driver 100) y_axis
           (serial_world [":A 0 9999999 0"])
           (mkWorld (mkSerial ["WHERE X Y Z"] []) 0 [] (fun _ => blank_motor)
                    [Called "position"])
           [0; 9999999; 0]%Q 9999999%Q);
    reflexivity.
Defined.

(** ** Homing one axis, reading one speed, reading a position *)

Section RealFacade.

Variable depth : nat.
Let real : Driver Serial := MS2000_Driver depth.
#[local] Existing Instance real.

(** X11: [home] of any one axis sends all three axes to the origin: whichever
    axis object is asked, an idle controller receives MOVE X=0 Y=0 Z=0, and
    a busy one nothing after the status query, the busy error being raised.
    Without [blocking] nothing is slept. *)
Theorem home_sends_every_axis_to_origin
    fuel self (w : World Serial) sent0 r1 r2 rest :
  _stage w = mkSerial sent0 (r1 :: r2 :: rest) ->
  home fuel self false w
  = if busy_reply r1
    then (inl (RuntimeError "Device is busy moving!"),
          advanced w sent0 ["STATUS"] (r2 :: rest) [] (clock w)
                   [Called "home"])
    else (inr tt,
          advanced w sent0 ["STATUS"; "MOVE X=0 Y=0 Z=0"] rest [] (clock w)
                   [Called "home"]).
Proof.
  intros Hs. unfold home, advanced, busy_reply.
  unfold bind at 1, on_stage. rewrite Hs.
  cbn -[Py.contains Py.strip].
  unfold bind, MS2000.status, bind, query, ret, lift.
  cbn -[Py.contains Py.strip].
  destruct (Py.contains "B" (Py.strip r1));
    cbn -[Py.contains Py.strip]; rewrite ?app_nil_r, <- ?app_assoc;
    reflexivity.
Qed.

(** X12: the real driver never makes the facade's [position] fail on its index:
    the tuple it returns for the three axes always has three entries. *)
Theorem position_never_index_error self (w : World Serial) :
  fst (position self w) <> inl IndexError.
Proof.
  unfold position. unfold bind at 1, on_stage.
  change (drv_position true true true)
    with (MS2000.position depth true true true).
  destruct (MS2000.position depth true true true (_stage w))
    as [[e|t] d1] eqn:P.
  - cbn [fst]. intros E. inversion E. subst e. clear E.
    revert P. generalize (_stage w). clear.
    induction depth as [|n IH]; intros d; cbn -[MS2000.floats Py.split].
    + discriminate.
    + unfold bind, query, lift.
      destruct (pending d) as [|reply rest]; [discriminate|].
      destruct (MS2000.floats 0 (tl (Py.split reply))) as [e|coords] eqn:F.
      * intros E. inversion E. subst e. clear E.
        revert F. generalize (tl (Py.split reply)). clear.
        intros l. induction l as [|c l IHl]; cbn; [discriminate|].
        destruct (Py.float c); [|discriminate].
        destruct (MS2000.floats 0 l) as [e|qs]; [|discriminate].
        intros E. inversion E. subst e. apply IHl. reflexivity.
      * destruct (length coords =? 3)%nat; [discriminate|]. apply IH.
  - apply position_all_three in P.
    destruct t as [|a [|b [|c [|]]]]; try discriminate P.
    unfold bind at 1, index.
    destruct self; cbn; discriminate.
Qed.

End RealFacade.

Lemma home_every_axis_witness :
  @home _ (MS2000_Driver 100) 700 z_axis false idle_scenario
  = (inr tt,
     advanced idle_scenario [] ["STATUS"; "MOVE X=0 Y=0 Z=0"] [] [] 0
              [Called "home"]).
Proof.
  apply (home_sends_every_axis_to_origin 100 700 z_axis idle_scenario
           [] "N" ":A" []).
  reflexivity.
Defined.

(** X13: [max_velocity] asks for the speed of its own axis only and then indexes
    the reply with the axis's place among x, y, z: when the controller
    answers with the one value asked for, the x axis gets it and the y and z
    axes get an [IndexError]. *)
Theorem max_velocity_only_reads_x self (w : World Serial) sent0 reply rest v :
  _stage w = mkSerial sent0 (reply :: rest) ->
  MS2000.floats 2 (tl (Py.split reply)) = inr [v] ->
  max_velocity self w
  = (match self with x_axis => inr v | _ => inl IndexError end,
     advanced w sent0 ["SPEED " ++ axis_letter self ++ "?"] rest [] (clock w)
              [Called "getSpeed"]).
Proof.
  intros Hs Hv. unfold max_velocity, advanced.
  unfold bind at 1, on_panel_stage, on_stage. rewrite Hs.
  rewrite app_nil_r.
  destruct self; cbn -[MS2000.floats Py.split];
    unfold bind, query, lift; cbn -[MS2000.floats Py.split];
    rewrite Hv; reflexivity.
Qed.

Lemma max_velocity_witness :
  max_velocity y_axis (serial_world [":A Y=5.5"])
  = (inl IndexError,
     advanced (serial_world [":A Y=5.5"]) [] ["SPEED Y?"] [] [] 0
              [Called "getSpeed"]).
Proof.
  apply (max_velocity_only_reads_x y_axis (serial_world [":A Y=5.5"])
           [] ":A Y=5.5" [] (55 # 10)); reflexivity.
Defined.

(** ** Construction of a stage that reads as homed *)

Section RealStartup.

Variable depth : nat.
Let real : Driver Serial := MS2000_Driver (S depth).
#[local] Existing Instance real.






End RealStartup.


(** * Properties of the control panel *)

(** ** What the driver can raise *)

Lemma status_raises_only_transport d e d' :
  MS2000.status d = (inl e, d') -> e = VisaIOError.
Proof.
  unfold MS2000.status, bind, query, ret.
  destruct (pending d); intros E; inversion E; reflexivity.
Qed.

Lemma move_raises_only_exceptions vx vy vz relative d e d' :
  MS2000.move vx vy vz relative d = (inl e, d') -> is_Exception e = true.
Proof.
  unfold MS2000.move.
  destruct (negb (Py.is_not_None vx || Py.is_not_None vy || Py.is_not_None vz)).
  { intros R. inversion R. reflexivity. }
  unfold bind at 1, lift at 1.
  pose proof (move_fields_outcome [("X", vx); ("Y", vy); ("Z", vz)]
                (if negb relative then "MOVE" else "MOVREL")) as Hf.
  destruct (MS2000.move_fields _ _) as [e0|line].
  { destruct Hf as [msg ->]. intros R. inversion R. reflexivity. }
  unfold bind at 1.
  destruct (MS2000.status d) as [[e0|idle] d1] eqn:S.
  { apply status_raises_only_transport in S. subst e0.
    intros R. inversion R. reflexivity. }
  destruct (negb idle).
  { intros R. inversion R. reflexivity. }
  unfold bind, query, ret.
  destruct (pending d1); intros R; inversion R. reflexivity.
Qed.



(** ** Waiting for the controller *)

Lemma wait_for_idle_polls_until_idle_aux
    (busy : list string) idle rest fuel sent0 naps events :
  Forall (fun r => busy_reply r = true) busy ->
  busy_reply idle = false ->
  (length busy < fuel)%nat ->
  StageGUI.wait_for_idle fuel
    (mkPanel (mkSerial sent0 (busy ++ idle :: rest)) naps events)
  = (inr tt,
     mkPanel (mkSerial (sent0 ++ repeat "STATUS" (S (length busy))) rest)
             (naps ++ repeat (5 # 100) (length busy)) events).
Proof.
  intros Hbusy Hidle. unfold busy_reply in Hidle.
  revert fuel sent0 naps.
  induction Hbusy as [|r busy Hr Hbusy IH]; intros fuel sent0 naps Hfuel;
    (destruct fuel as [|fuel]; [inversion Hfuel|]);
    cbn [StageGUI.wait_for_idle app length repeat].
  - unfold bind, on_panel_stage, MS2000.status, bind, query, ret.
    cbn [panel_stage pending sent panel_slept panel_events].
    rewrite Hidle. cbn [negb]. rewrite app_nil_r. reflexivity.
  - unfold busy_reply in Hr.
    unfold bind at 1, on_panel_stage at 1, MS2000.status, bind, query, ret.
    cbn [panel_stage pending sent panel_slept panel_events].
    rewrite Hr. cbn [negb]. unfold panel_sleep.
    cbn [panel_stage panel_slept panel_events].
    rewrite IH by (cbn in Hfuel; lia).
    rewrite <- !app_assoc. reflexivity.
Qed.

(** X15: [wait_for_idle] with [k] busy status replies followed by an idle one
    sleeps [k] times 0.05 s and has asked for the status [k + 1] times when
    it returns. *)
Theorem wait_for_idle_polls_until_idle
    (busy : list string) idle rest fuel sent0 naps events :
  Forall (fun r => busy_reply r = true) busy ->
  busy_reply idle = false ->
  (length busy < fuel)%nat ->
  StageGUI.wait_for_idle fuel
    (mkPanel (mkSerial sent0 (busy ++ idle :: rest)) naps events)
  = (inr tt,
     mkPanel (mkSerial (sent0 ++ repeat "STATUS" (S (length busy))) rest)
             (naps ++ repeat (5 # 100) (length busy)) events).
Proof. apply wait_for_idle_polls_until_idle_aux. Qed.

Lemma wait_for_idle_witness :
  StageGUI.wait_for_idle 50
    (mkPanel (mkSerial [] (["B"; ":B"] ++ "N" :: [":A"])) [] [])
  = (inr tt,
     mkPanel (mkSerial ([] ++ repeat "STATUS" 3) [":A"])
             ([] ++ repeat (5 # 100) 2) []).
Proof.
  apply (wait_for_idle_polls_until_idle ["B"; ":B"] "N" [":A"] 50 [] [] []).
  - repeat constructor.
  - reflexivity.
  - cbn. lia.
Defined.

(** ** The move handler *)

Lemma wait_for_idle_raises fuel : forall g e g1,
  StageGUI.wait_for_idle fuel g = (inl e, g1) ->
  e = VisaIOError \/ e = Diverged.
Proof.
  induction fuel as [|fuel IH]; intros g e g1; cbn [StageGUI.wait_for_idle].
  - intros R. inversion R. right. reflexivity.
  - unfold bind at 1, on_panel_stage at 1.
    destruct (MS2000.status (panel_stage g)) as [[e0|idle] d1] eqn:S.
    + apply status_raises_only_transport in S. subst e0.
      intros R. inversion R. left. reflexivity.
    + destruct idle; cbn [negb].
      * discriminate.
      * unfold bind, panel_sleep. apply IH.
Qed.




(** X17: [stage_home] never raises: the wait for an idle controller is inside
    its [try], so a dead link during the wait is printed like a refused
    move.  It returns, or it is still waiting. *)
Theorem stage_home_never_raises fuel (g : Panel) :
  fst (StageGUI.stage_home fuel g) = inr tt
  \/ fst (StageGUI.stage_home fuel g) = inl Diverged.
Proof.
  unfold StageGUI.stage_home, try_except_as.
  destruct (StageGUI.wait_for_idle fuel g) as [[e|[]] g1] eqn:W.
  - rewrite (bind_err _ _ _ _ _ W).
    destruct (wait_for_idle_raises _ _ _ _ W) as [-> | ->]; cbn.
    + left. reflexivity.
    + right. reflexivity.
  - rewrite (bind_ok _ _ _ _ _ W). unfold on_panel_stage, MS2000.home.
    destruct (MS2000.move (Py.PyInt 0) (Py.PyInt 0) (Py.PyInt 0) false
                (panel_stage g1)) as [[e|[]] d1] eqn:Mv.
    + rewrite (move_raises_only_exceptions _ _ _ _ _ _ _ Mv).
      left. reflexivity.
    + left. reflexivity.
Qed.

(** ** Coordinates read for the display *)


(** ** From the entries and buttons to the line transmitted *)

Lemma float_or_None_ok (v : option Q) : numeric_or_None (float_or_None v) = true.
Proof. destruct v; reflexivity. Qed.

(** A move of well-typed values through an idle controller. *)
Lemma move_idle vx vy vz relative sent0 r1 r2 rest :
  numeric_or_None vx = true ->
  numeric_or_None vy = true ->
  numeric_or_None vz = true ->
  Py.is_not_None vx || Py.is_not_None vy || Py.is_not_None vz = true ->
  busy_reply r1 = false ->
  MS2000.move vx vy vz relative (mkSerial sent0 (r1 :: r2 :: rest))
  = (inr tt,
     mkSerial (sent0 ++ ["STATUS";
                         (if relative then "MOVREL" else "MOVE")
                           ++ field "X" (Py.round_3 vx)
                           ++ field "Y" (Py.round_3 vy)
                           ++ field "Z" (Py.round_3 vz)])
              rest).
Proof.
  intros Hx Hy Hz Hany Hidle. unfold busy_reply in Hidle.
  assert (Hok : forallb (fun av => numeric_or_None (snd av))
                        [("X", vx); ("Y", vy); ("Z", vz)] = true)
    by (cbn; rewrite Hx, Hy, Hz; reflexivity).
  unfold MS2000.move. rewrite Hany. cbn [negb].
  unfold bind at 1, lift at 1. rewrite (move_fields_text _ _ Hok).
  cbn [map fields fst snd]. rewrite append_nil_r.
  unfold bind, MS2000.status, bind, query, ret. cbn [pending sent].
  rewrite Hidle. cbn [negb pending sent]. rewrite <- app_assoc.
  destruct relative; reflexivity.
Qed.

Lemma wait_for_idle_at_once fuel sent0 r0 rest naps events :
  busy_reply r0 = false ->
  StageGUI.wait_for_idle (S fuel)
    (mkPanel (mkSerial sent0 (r0 :: rest)) naps events)
  = (inr tt, mkPanel (mkSerial (sent0 ++ ["STATUS"]) rest) naps events).
Proof.
  intros Hidle.
  pose proof (wait_for_idle_polls_until_idle_aux [] r0 rest (S fuel) sent0
                naps events (Forall_nil _) Hidle (Nat.lt_0_succ fuel)) as Hw.
  cbn [app length repeat] in Hw. rewrite app_nil_r in Hw. exact Hw.
Qed.

(** X19: the Move button: entries that are empty or read as numbers are taken
    as millimetres, multiplied by 10000, and sent as one absolute move of
    the axes that were filled in, after the handler's and the driver's
    status queries found the controller idle. *)
Theorem coordinate_entries_move_in_ten_thousandths
    fuel x_entry y_entry z_entry x y z sent0 r0 r1 r2 rest naps events :
  StageControl.entry_value (Py.strip x_entry) = inr x ->
  StageControl.entry_value (Py.strip y_entry) = inr y ->
  StageControl.entry_value (Py.strip z_entry) = inr z ->
  x <> None \/ y <> None \/ z <> None ->
  busy_reply r0 = false ->
  busy_reply r1 = false ->
  StageControl.move_stage (StageGUI.stage_move_handler (S fuel))
    x_entry y_entry z_entry
    (mkPanel (mkSerial sent0 (r0 :: r1 :: r2 :: rest)) naps events)
  = (inr tt,
     mkPanel
       (mkSerial (sent0 ++ ["STATUS"; "STATUS";
                            "MOVE" ++ field "X" (to_native x)
                                   ++ field "Y" (to_native y)
                                   ++ field "Z" (to_native z)])
                 rest)
       naps events).
Proof.
  intros Hx Hy Hz Hany H0 H1.
  unfold StageControl.move_stage, try_except_as.
  unfold bind at 1, lift at 1. rewrite Hx.
  unfold bind at 1, lift at 1. rewrite Hy.
  unfold bind at 1, lift at 1. rewrite Hz.
  unfold StageGUI.stage_move_handler.
  rewrite (bind_ok _ _ _ _ _
             (wait_for_idle_at_once fuel sent0 r0 (r1 :: r2 :: rest)
                naps events H0)).
  cbn [String.eqb Ascii.eqb Bool.eqb]. unfold try_except_as, on_panel_stage.
  cbn [panel_stage panel_slept panel_events].
  rewrite move_idle; try apply float_or_None_ok; try assumption.
  - unfold to_native. rewrite <- app_assoc. reflexivity.
  - destruct x, y, z; try reflexivity.
    destruct Hany as [F|[F|F]]; contradiction.
Qed.

Lemma coordinate_entries_witness :
  StageControl.move_stage (StageGUI.stage_move_handler 1)
    " 1.5 " "" "-2"
    (mkPanel (mkSerial [] ["N"; "N"; ":A"]) [] [])
  = (inr tt,
     mkPanel
       (mkSerial ([] ++ ["STATUS"; "STATUS";
                         "MOVE" ++ field "X" (to_native (Some (15 # 10)))
                                ++ field "Y" (to_native None)
                                ++ field "Z" (to_native (Some (-2)%Q))])
                 [])
       [] []).
Proof.
  apply (coordinate_entries_move_in_ten_thousandths 0 " 1.5 " "" "-2"
           (Some (15 # 10)) None (Some (-2)%Q) [] "N" "N" ":A" [] [] []);
    try reflexivity.
  left. discriminate.
Defined.

(** X20: the Move button with nothing filled in (blank entries included): the
    handler asks for the status, the driver refuses a move without axes,
    and the refusal is shown and printed; no move is transmitted. *)
Theorem empty_form_shows_error_and_sends_no_move
    fuel x_entry y_entry z_entry sent0 r0 rest naps events :
  Py.strip x_entry = "" ->
  Py.strip y_entry = "" ->
  Py.strip z_entry = "" ->
  busy_reply r0 = false ->
  StageControl.move_stage (StageGUI.stage_move_handler (S fuel))
    x_entry y_entry z_entry
    (mkPanel (mkSerial sent0 (r0 :: rest)) naps events)
  = (inr tt,
     mkPanel (mkSerial (sent0 ++ ["STATUS"]) rest) naps
       (events
          ++ [ShowError "Stage Move Error"
                (ValueError "Must specify at least one axis");
              Printed "Error:"
                (ValueError "Must specify at least one axis")])).
Proof.
  intros Hx Hy Hz H0.
  unfold StageControl.move_stage, try_except_as. rewrite Hx, Hy, Hz.
  unfold bind at 1, lift at 1. cbn [StageControl.entry_value String.eqb].
  unfold bind at 1, lift at 1. unfold bind at 1, lift at 1.
  unfold StageGUI.stage_move_handler.
  rewrite (bind_ok _ _ _ _ _
             (wait_for_idle_at_once fuel sent0 r0 rest naps events H0)).
  cbn. rewrite <- app_assoc. reflexivity.
Qed.

Lemma empty_form_witness :
  StageControl.move_stage (StageGUI.stage_move_handler 1) "" "  " ""
    (mkPanel (mkSerial [] ["N"; ":A"]) [] [])
  = (inr tt,
     mkPanel (mkSerial ([] ++ ["STATUS"]) [":A"]) []
       ([] ++ [ShowError "Stage Move Error"
                 (ValueError "Must specify at least one axis");
               Printed "Error:"
                 (ValueError "Must specify at least one axis")])).
Proof.
  apply (empty_form_shows_error_and_sends_no_move 0 "" "  " "" [] "N" [":A"]
           [] []); reflexivity.
Defined.

(** ** The step buttons *)

Lemma press_xy_x fuel q sent0 r0 r1 r2 rest naps events :
  busy_reply r0 = false ->
  busy_reply r1 = false ->
  StageControl.move_xy (StageGUI.stage_move_handler (S fuel)) (Some q) None
    (idle_panel sent0 r0 r1 r2 rest naps events)
  = pressed sent0 rest naps events
      ("MOVREL" ++ field "X" (Py.round_3 (Py.PyFloat q))).
Proof.
  intros H0 H1. unfold StageControl.move_xy, idle_panel, pressed.
  unfold bind at 1. unfold StageGUI.stage_move_handler.
  rewrite (bind_ok _ _ _ _ _
             (wait_for_idle_at_once fuel sent0 r0 (r1 :: r2 :: rest)
                naps events H0)).
  cbn [String.eqb Ascii.eqb Bool.eqb]. unfold try_except_as, on_panel_stage.
  cbn [panel_stage panel_slept panel_events float_or_None].
  rewrite move_idle; try reflexivity; try assumption.
  unfold ret. cbn [field Py.is_not_None Py.round_3].
  rewrite !append_nil_r, <- app_assoc. reflexivity.
Qed.

Lemma press_xy_y fuel q sent0 r0 r1 r2 rest naps events :
  busy_reply r0 = false ->
  busy_reply r1 = false ->
  StageControl.move_xy (StageGUI.stage_move_handler (S fuel)) None (Some q)
    (idle_panel sent0 r0 r1 r2 rest naps events)
  = pressed sent0 rest naps events
      ("MOVREL" ++ field "Y" (Py.round_3 (Py.PyFloat q))).
Proof.
  intros H0 H1. unfold StageControl.move_xy, idle_panel, pressed.
  unfold bind at 1, ret at 1. unfold StageGUI.stage_move_handler.
  rewrite (bind_ok _ _ _ _ _
             (wait_for_idle_at_once fuel sent0 r0 (r1 :: r2 :: rest)
                naps events H0)).
  cbn [String.eqb Ascii.eqb Bool.eqb]. unfold try_except_as, on_panel_stage.
  cbn [panel_stage panel_slept panel_events float_or_None].
  rewrite move_idle; try reflexivity; try assumption.
  cbn [field Py.is_not_None Py.round_3].
  rewrite !append_nil_r, <- app_assoc. reflexivity.
Qed.

Lemma press_z fuel q sent0 r0 r1 r2 rest naps events :
  busy_reply r0 = false ->
  busy_reply r1 = false ->
  StageControl.move_z (StageGUI.stage_move_handler (S fuel)) (Some q)
    (idle_panel sent0 r0 r1 r2 rest naps events)
  = pressed sent0 rest naps events
      ("MOVREL" ++ field "Z" (Py.round_3 (Py.PyFloat q))).
Proof.
  intros H0 H1. unfold StageControl.move_z, idle_panel, pressed.
  unfold StageGUI.stage_move_handler.
  rewrite (bind_ok _ _ _ _ _
             (wait_for_idle_at_once fuel sent0 r0 (r1 :: r2 :: rest)
                naps events H0)).
  cbn [String.eqb Ascii.eqb Bool.eqb]. unfold try_except_as, on_panel_stage.
  cbn [panel_stage panel_slept panel_events float_or_None].
  rewrite move_idle; try reflexivity; try assumption.
  cbn [field Py.is_not_None Py.round_3].
  rewrite <- app_assoc. reflexivity.
Qed.

(** X21: with a step of [um] micrometres selected, each arrow button sends one
    relative move of 10 [um] native units on its axis to an idle
    controller: left and right are -x and +x, the XY pad's up and down are
    +y and -y, and the Z pad's up and down are -z and +z. *)
Theorem step_buttons_move_ten_units_per_micrometre
    label um fuel sent0 r0 r1 r2 rest naps events :
  In (label, um) StageControl.step_map ->
  busy_reply r0 = false ->
  busy_reply r1 = false ->
  (exists x y,
      XYControl.move_left label = Some (x, y)
      /\ StageControl.move_xy (StageGUI.stage_move_handler (S fuel)) x y
           (idle_panel sent0 r0 r1 r2 rest naps events)
         = pressed sent0 rest naps events (button_line "X" (-10 * um)))
  /\ (exists x y,
        XYControl.move_right label = Some (x, y)
        /\ StageControl.move_xy (StageGUI.stage_move_handler (S fuel)) x y
             (idle_panel sent0 r0 r1 r2 rest naps events)
           = pressed sent0 rest naps events (button_line "X" (10 * um)))
  /\ (exists x y,
        XYControl.move_up label = Some (x, y)
        /\ StageControl.move_xy (StageGUI.stage_move_handler (S fuel)) x y
             (idle_panel sent0 r0 r1 r2 rest naps events)
           = pressed sent0 rest naps events (button_line "Y" (10 * um)))
  /\ (exists x y,
        XYControl.move_down label = Some (x, y)
        /\ StageControl.move_xy (StageGUI.stage_move_handler (S fuel)) x y
             (idle_panel sent0 r0 r1 r2 rest naps events)
           = pressed sent0 rest naps events (button_line "Y" (-10 * um)))
  /\ (exists z,
        ZControl.move_up label = Some z
        /\ StageControl.move_z (StageGUI.stage_move_handler (S fuel)) (Some z)
             (idle_panel sent0 r0 r1 r2 rest naps events)
           = pressed sent0 rest naps events (button_line "Z" (-10 * um)))
  /\ (exists z,
        ZControl.move_down label = Some z
        /\ StageControl.move_z (StageGUI.stage_move_handler (S fuel)) (Some z)
             (idle_panel sent0 r0 r1 r2 rest naps events)
           = pressed sent0 rest naps events (button_line "Z" (10 * um))).
Proof.
  intros Hin H0 H1.
  assert (Hcase : (label, um) = ("1µm", 1) \/ (label, um) = ("5µm", 5)
                  \/ (label, um) = ("10µm", 10) \/ (label, um) = ("25µm", 25)
                  \/ (label, um) = ("50µm", 50)
                  \/ (label, um) = ("100µm", 100)).
  { cbn in Hin. intuition (auto using eq_sym). }
  destruct Hcase as [E|[E|[E|[E|[E|E]]]]]; inversion E; subst label um; clear E;
    (split; [|split; [|split; [|split; [|split]]]]).
  all: try (eexists; eexists; split; [vm_compute; reflexivity|];
            first [ rewrite press_xy_x by assumption
                  | rewrite press_xy_y by assumption ];
            reflexivity).
  all: eexists; split; [vm_compute; reflexivity|];
       rewrite press_z by assumption; reflexivity.
Qed.

Lemma step_buttons_witness :
  exists x y,
    XYControl.move_left "25µm" = Some (x, y)
    /\ StageControl.move_xy (StageGUI.stage_move_handler 1) x y
         (idle_panel [] "N" "N" ":A" [] [] [])
       = pressed [] [] [] [] (button_line "X" (-10 * 25)).
Proof.
  apply (proj1 (step_buttons_move_ten_units_per_micrometre
                  "25µm" 25 0 [] "N" "N" ":A" [] [] []
                  (or_intror (or_intror (or_intror (or_introl eq_refl))))
                  eq_refl eq_refl)).
Defined.

(** ** Limits read from the controller *)

Lemma lt_over_ten_e6 (a b : Q) : Py.lt (a / ten_e6) (b / ten_e6) = Py.lt a b.
Proof.
  unfold Py.lt. f_equal.
  assert (Hpos : (0 < / ten_e6)%Q) by reflexivity.
  destruct (Qle_bool b a) eqn:E.
  - apply Qle_bool_iff. apply Qle_bool_iff in E.
    unfold Qdiv. apply Qmult_le_compat_r; [exact E|]. apply Qlt_le_weak.
    exact Hpos.
  - destruct (Qle_bool (b / ten_e6) (a / ten_e6)) eqn:F; [|reflexivity].
    apply Qle_bool_iff in F. unfold Qdiv in F.
    apply (proj1 (Qmult_le_r _ _ _ Hpos)) in F. apply Qle_bool_iff in F.
    rewrite F in E. discriminate.
Qed.

Section RealLimits.

Variable depth : nat.
Let real : Driver Serial := MS2000_Driver depth.
#[local] Existing Instance real.

(** X22: without configured limits, the first read of [position_limits] costs
    the two limit queries for all axes and pairs the replies up by place.
    When the lower bound at the axis's place is strictly below the upper
    one, the pair, both bounds divided by [10e6], is returned and cached.
    When it is not (equal bounds included), the range constructor's
    [ValueError] comes out and nothing is cached.  When the replies hold too
    few values for that place the read fails with [IndexError] and caches
    nothing.  In each case the queries are not repeated as a position query
    would be. *)
Theorem position_limits_from_controller
    self (w : World Serial) sent0 low high rest lows highs :
  position_limits_cache (motors w self) = None ->
  _position_limits (motors w self) = None ->
  _stage w = mkSerial sent0 (low :: high :: rest) ->
  MS2000.floats 2 (tl (Py.split low)) = inr lows ->
  MS2000.floats 2 (tl (Py.split high)) = inr highs ->
  exists w',
    position_limits self w
    = (match nth_error (combine lows highs) (axis_idx self) with
       | Some lu =>
           if Py.lt (fst lu) (snd lu)
           then inr (mkRange (fst lu / ten_e6) (snd lu / ten_e6))
           else inl (ValueError "min must be less than max")
       | None => inl IndexError
       end, w')
    /\ _stage w'
       = mkSerial (sent0 ++ ["SETLOW X? Y? Z?"; "SETUP X? Y? Z?"]) rest
    /\ position_limits_cache (motors w' self)
       = match nth_error (combine lows highs) (axis_idx self) with
         | Some lu =>
             if Py.lt (fst lu) (snd lu)
             then Some (mkRange (fst lu / ten_e6) (snd lu / ten_e6))
             else None
         | None => None
         end.
Proof.
  intros Hcache Hcfg Hs Hlo Hhi.
  assert (Hlim : on_stage "limits" (drv_limits true true true) w
                 = (inr (combine lows highs),
                    mkWorld (mkSerial (sent0 ++ ["SETLOW X? Y? Z?";
                                                 "SETUP X? Y? Z?"]) rest)
                            (clock w) (slept w) (motors w)
                            (journal w ++ [Called "limits"]))).
  { apply on_stage_run. rewrite Hs.
    change (drv_limits true true true) with (MS2000.limits true true true).
    unfold MS2000.limits. cbn -[MS2000.floats Py.split].
    unfold bind, query, lift, ret. cbn -[MS2000.floats Py.split].
    rewrite Hlo. cbn -[MS2000.floats Py.split]. rewrite Hhi.
    rewrite <- app_assoc. reflexivity. }
  unfold position_limits.
  unfold bind at 1, get_motor at 1. rewrite Hcache.
  unfold bind at 1. rewrite Hcfg.
  rewrite (bind_ok _ _ _ _ _ Hlim). unfold index.
  destruct (nth_error (combine lows highs) (axis_idx self)) as [lu|].
  - unfold bind at 1, ret at 1, lift, PositionRange_new.
    rewrite lt_over_ten_e6.
    destruct (Py.lt (fst lu) (snd lu)).
    + unfold bind, ret, lift, get_motor, set_motor.
      cbn [_stage clock slept motors journal].
      eexists. split; [reflexivity|]. split; [reflexivity|].
      cbn [motors]. rewrite axis_eqb_refl. reflexivity.
    + unfold bind, ret, lift. eexists. split; [reflexivity|].
      split; [reflexivity|]. cbn [motors]. exact Hcache.
  - unfold bind, raise. eexists. split; [reflexivity|].
    split; [reflexivity|]. cbn [motors]. exact Hcache.
Qed.

End RealLimits.

Lemma position_limits_from_controller_witness :
  exists w',
    @position_limits _ (MS2000_Driver 100) y_axis
      (serial_world [":A X=-5 Y=0 Z=-1"; ":A X=5 Y=0 Z=1"])
    = (match nth_error (combine [-5; 0; -1]%Q [5; 0; 1]%Q)
                       (axis_idx y_axis) with
       | Some lu =>
           if Py.lt (fst lu) (snd lu)
           then inr (mkRange (fst lu / ten_e6) (snd lu / ten_e6))
           else inl (ValueError "min must be less than max")
       | None => inl IndexError
       end, w')
    /\ _stage w'
       = mkSerial ([] ++ ["SETLOW X? Y? Z?"; "SETUP X? Y? Z?"]) []
    /\ position_limits_cache (motors w' y_axis)
       = match nth_error (combine [-5; 0; -1]%Q [5; 0; 1]%Q)
                         (axis_idx y_axis) with
         | Some lu =>
             if Py.lt (fst lu) (snd lu)
             then Some (mkRange (fst lu / ten_e6) (snd lu / ten_e6))
             else None
         | None => None
         end.
Proof.
  apply (position_limits_from_controller 100 y_axis
           (serial_world [":A X=-5 Y=0 Z=-1"; ":A X=5 Y=0 Z=1"])
           [] ":A X=-5 Y=0 Z=-1" ":A X=5 Y=0 Z=1" []
           [-5; 0; -1]%Q [5; 0; 1]%Q);
    reflexivity.
Defined.

(** The limits of a controller that reports 0 for both bounds of every axis
    cannot be read: each read asks again and fails again. *)
Example position_limits_of_zero_bounds :
  fst (@position_limits _ (MS2000_Driver 100) x_axis
         (serial_world [":A X=0 Y=0 Z=0"; ":A X=0 Y=0 Z=0"]))
  = inl (ValueError "min must be less than max").
Proof. reflexivity. Qed.
